(** * Todo client: WebSocket synchronisation and persistent store

    A shallow embedding of [ui/src/App.tsx] (the [App] component: its
    intent callbacks, the four socket handlers and the effect cleanup) and of
    [ui/src/store/todo.ts] (the [useTodoStore] store with its [setTasks]
    action), followed by the properties of the synchronisation protocol.

    The JavaScript runtime is modelled as far as the component uses it:
    strings are sequences of UTF-16 code units, values are the values
    [JSON.parse] can return plus [undefined], numbers are IEEE 754 doubles,
    the socket has the four ready states of the WebSocket API, exceptions
    are explicit results, and [console] is a list of entries. *)

From Stdlib Require Import NArith Bool List Ascii String Floats.PrimFloat Lia.
From stdpp Require Import base option list gmap.
Import ListNotations.

Local Open Scope N_scope.

(** ** JavaScript strings *)

Module JS.

(** A string is its sequence of UTF-16 code units. *)
Abbreviation JSString := (list N).

(** A source literal made of ASCII characters only. *)
Definition lit (s : string) : JSString :=
  map N_of_ascii (list_ascii_of_string s).

Definition string_eqb (a b : JSString) : bool := bool_decide (a = b).

(** ECMAScript [WhiteSpace] and [LineTerminator] code points: what
    [String.prototype.trim] strips. All of them are single code units. *)
Definition is_white_space (c : N) : bool :=
  (c =? 0x09) || (c =? 0x0A) || (c =? 0x0B) || (c =? 0x0C) || (c =? 0x0D)
  || (c =? 0x20) || (c =? 0xA0) || (c =? 0x1680)
  || ((0x2000 <=? c) && (c <=? 0x200A))
  || (c =? 0x2028) || (c =? 0x2029) || (c =? 0x202F) || (c =? 0x205F)
  || (c =? 0x3000) || (c =? 0xFEFF).

Fixpoint trim_start (s : JSString) : JSString :=
  match s with
  | c :: rest => if is_white_space c then trim_start rest else s
  | [] => []
  end.

Definition trim_end (s : JSString) : JSString := rev (trim_start (rev s)).

(** [s.trim()] *)
Definition trim (s : JSString) : JSString := trim_end (trim_start s).

(** ** JavaScript values *)

#[warnings="-register-all"] Inductive JSValue : Type :=
| JUndefined
| JNull
| JBool (b : bool)
| JNumber (x : float)
| JString (s : JSString)
| JArray (elems : list JSValue)
| JObject (props : list (JSString * JSValue)).

(** [ToBoolean], the test of [if (v)] and of [!v]. *)
Definition ToBoolean (v : JSValue) : bool :=
  match v with
  | JUndefined | JNull => false
  | JBool b => b
  | JNumber x => negb (PrimFloat.is_zero x || PrimFloat.is_nan x)
  | JString s => negb (string_eqb s [])
  | JArray _ | JObject _ => true
  end.

(** [v === "..."] against a string literal: no coercion. *)
Definition strict_equals_string (v : JSValue) (s : JSString) : bool :=
  match v with
  | JString t => string_eqb t s
  | _ => false
  end.

Inductive Exn := SyntaxError | TypeError | InvalidStateError.

(** Own property of an object literal or of an object built by [JSON.parse]. *)
Fixpoint own_property (props : list (JSString * JSValue)) (k : JSString)
  : option JSValue :=
  match props with
  | [] => None
  | (k', v) :: rest => if string_eqb k' k then Some v else own_property rest k
  end.

(** The two property names the component reads off an inbound message.
    Neither is defined by [Object.prototype], [Array.prototype] or the
    wrappers of the primitives, and neither is an index or [length], so a
    read on anything but a plain object gives [undefined]. *)
Inductive Field := f_type | f_tasks.

Definition field_name (f : Field) : JSString :=
  match f with
  | f_type => lit "type"
  | f_tasks => lit "tasks"
  end.

(** [v.type] and [v.tasks]: a read on [null] or [undefined] throws. *)
Definition Get (v : JSValue) (f : Field) : Exn + JSValue :=
  match v with
  | JUndefined | JNull => inl TypeError
  | JObject props =>
      inr (match own_property props (field_name f) with
           | Some x => x
           | None => JUndefined
           end)
  | _ => inr JUndefined
  end.

End JS.
Import JS.

(** ** The WebSocket object *)

Inductive ReadyState := CONNECTING | OPEN | CLOSING | CLOSED.

Definition ReadyState_eqb (a b : ReadyState) : bool :=
  match a, b with
  | CONNECTING, CONNECTING | OPEN, OPEN | CLOSING, CLOSING | CLOSED, CLOSED => true
  | _, _ => false
  end.

(** The socket as the component sees it: its ready state and the frames
    [send] has accepted, oldest first. *)
Record WebSocket := mkWebSocket {
  readyState : ReadyState;
  outbound : list JSString;
}.

(** [new WebSocket(url)] *)
Definition WebSocket_new : WebSocket :=
  {| readyState := CONNECTING; outbound := [] |}.

(** [ws.send(frame)]: throws while connecting, transmits when open, and
    discards the data once the socket is closing or closed. *)
Definition WebSocket_send (frame : JSString) (ws : WebSocket) : Exn + WebSocket :=
  match readyState ws with
  | CONNECTING => inl InvalidStateError
  | OPEN => inr {| readyState := OPEN; outbound := outbound ws ++ [frame] |}
  | CLOSING | CLOSED => inr ws
  end.

(** [ws.close()]: starts the closing handshake unless it has started. *)
Definition WebSocket_close (ws : WebSocket) : WebSocket :=
  match readyState ws with
  | CONNECTING | OPEN => {| readyState := CLOSING; outbound := outbound ws |}
  | CLOSING | CLOSED => ws
  end.

(** A socket is released once it is closing or closed. *)
Definition released (ws : WebSocket) : bool :=
  match readyState ws with
  | CLOSING | CLOSED => true
  | CONNECTING | OPEN => false
  end.

(** ** Console and session storage *)

Inductive Level := LOG | WARN | ERROR.

Definition Level_eqb (a b : Level) : bool :=
  match a, b with
  | LOG, LOG | WARN, WARN | ERROR, ERROR => true
  | _, _ => false
  end.

(** What an entry shows after its message: a string, a value, the event
    object a handler received, a caught exception, or a string fixed by the
    build ([BASE_URL] and the URLs made from it). *)
Inductive LogArg :=
| ArgString (s : JSString)
| ArgValue (v : JSValue)
| ArgEvent
| ArgExn (e : Exn)
| ArgEnv.

Record LogEntry := mkLogEntry {
  level : Level;
  message : JSString;
  args : list LogArg;
}.

Inductive StorageOp :=
| GetItem (key : JSString)
| SetItem (key value : JSString).

(** ** State of the page

    The store, the session storage, the [useState] cells and the [useRef]
    cell of [App], and the console. The callbacks read [wsConnected] and
    [newTaskText] as of the last render, so a state is a state of the page
    once it has rendered: an intent that reaches the page between a socket
    event and the render that follows it reads the cells of the render
    before, and is a run of its handler on such a state. *)

Record AppState := mkAppState {
  (** [useTodoStore]: the store's only data field *)
  tasks : JSValue;
  (** [sessionStorage] and the calls made on it since the page loaded *)
  sessionStorage : gmap JSString JSString;
  storageTrace : list StorageOp;
  (** [useState] cells of [App] *)
  wsConnected : bool;
  newTaskText : JSString;
  (** [wsRef.current] *)
  wsRef : option WebSocket;
  console : list LogEntry;
}.

Definition with_tasks (v : JSValue) (s : AppState) : AppState :=
  mkAppState v (sessionStorage s) (storageTrace s) (wsConnected s)
             (newTaskText s) (wsRef s) (console s).

Definition with_storage (m : gmap JSString JSString) (t : list StorageOp)
    (s : AppState) : AppState :=
  mkAppState (tasks s) m t (wsConnected s) (newTaskText s) (wsRef s) (console s).

Definition with_wsConnected (b : bool) (s : AppState) : AppState :=
  mkAppState (tasks s) (sessionStorage s) (storageTrace s) b
             (newTaskText s) (wsRef s) (console s).

Definition with_newTaskText (t : JSString) (s : AppState) : AppState :=
  mkAppState (tasks s) (sessionStorage s) (storageTrace s) (wsConnected s)
             t (wsRef s) (console s).

Definition with_wsRef (r : option WebSocket) (s : AppState) : AppState :=
  mkAppState (tasks s) (sessionStorage s) (storageTrace s) (wsConnected s)
             (newTaskText s) r (console s).

Definition with_console (c : list LogEntry) (s : AppState) : AppState :=
  mkAppState (tasks s) (sessionStorage s) (storageTrace s) (wsConnected s)
             (newTaskText s) (wsRef s) c.

(** Frames the current socket has accepted. *)
Definition sent (s : AppState) : list JSString :=
  match wsRef s with
  | Some ws => outbound ws
  | None => []
  end.

(** ** Computations: state threaded through, exceptions as results *)

Definition M (A : Type) : Type := AppState -> (Exn + A) * AppState.

Definition ret {A} (x : A) : M A := fun s => (inr x, s).

Definition bind {A B} (m : M A) (k : A -> M B) : M B :=
  fun s =>
    match m s with
    | (inr x, s') => k x s'
    | (inl e, s') => (inl e, s')
    end.

Declare Scope js_scope.
Delimit Scope js_scope with js.
Notation "'let*' x ':=' m 'in' k" := (bind m (fun x => k))
  (at level 10, x name, m at level 100, k at level 200) : js_scope.
Notation "'do*' m 'in' k" := (bind m (fun _ => k))
  (at level 10, m at level 100, k at level 200) : js_scope.
Local Open Scope js_scope.

(** [try { body } catch (error) { handler }] *)
Definition try_catch (body : M unit) (handler : Exn -> M unit) : M unit :=
  fun s =>
    match body s with
    | (inr x, s') => (inr x, s')
    | (inl e, s') => handler e s'
    end.

Definition gets {A} (f : AppState -> A) : M A := fun s => (inr (f s), s).

Definition modify (f : AppState -> AppState) : M unit := fun s => (inr tt, f s).

Definition lift {A} (r : Exn + A) : M A := fun s => (r, s).

(** [a || b] with the right operand evaluated only when needed *)
Definition orM (a b : M bool) : M bool :=
  let* x := a in if x then ret true else b.

(** State after a handler has run, whatever its completion. *)
Definition exec (m : M unit) (s : AppState) : AppState := snd (m s).

Definition console_write (l : Level) (msg : string) (a : list LogArg) : M unit :=
  modify (fun s => with_console (console s ++ [mkLogEntry l (lit msg) a]) s).

Definition console_log := console_write LOG.
Definition console_warn := console_write WARN.
Definition console_error := console_write ERROR.

Definition setWsConnected (b : bool) : M unit := modify (with_wsConnected b).
Definition setNewTaskText (t : JSString) : M unit := modify (with_newTaskText t).

(** A method call on the socket held in [wsRef.current] (the [ws] of the
    effect's closure is that same object). *)
Definition ws_call (f : WebSocket -> Exn + WebSocket) : M unit :=
  fun s =>
    match wsRef s with
    | Some ws =>
        match f ws with
        | inr ws' => (inr tt, with_wsRef (Some ws') s)
        | inl e => (inl e, s)
        end
    | None => (inl TypeError, s)
    end.

(** [ws.readyState === WebSocket.OPEN] *)
Definition ws_is_open (cur : option WebSocket) : bool :=
  match cur with
  | Some ws => ReadyState_eqb (readyState ws) OPEN
  | None => false
  end.

(** ** A small runtime for the examples

    Used only to run the handlers on concrete frames: a serialiser for
    values whose strings need no escape (numbers are not rendered), and a
    parser that reads back the frames of a fixed table. *)

Module Example.

(** Between double quotes, U+0022. *)
Definition quote (s : JSString) : JSString := 0x22 :: s ++ [0x22].

Fixpoint stringify (v : JSValue) : JSString :=
  match v with
  | JUndefined | JNull => lit "null"
  | JBool true => lit "true"
  | JBool false => lit "false"
  | JNumber _ => lit "0"
  | JString s => quote s
  | JArray elems =>
      lit "["
      ++ (fix items (l : list JSValue) : JSString :=
            match l with
            | [] => []
            | x :: rest =>
                stringify x ++ match rest with [] => [] | _ => lit "," ++ items rest end
            end) elems
      ++ lit "]"
  | JObject props =>
      lit "{"
      ++ (fix members (l : list (JSString * JSValue)) : JSString :=
            match l with
            | [] => []
            | (k, x) :: rest =>
                quote k ++ lit ":" ++ stringify x
                ++ match rest with [] => [] | _ => lit "," ++ members rest end
            end) props
      ++ lit "}"
  end.

Definition task (id text : string) (completed : bool) : JSValue :=
  JObject [(lit "id", JString (lit id)); (lit "text", JString (lit text));
           (lit "completed", JBool completed)].

Definition message (type : string) (tasks : JSValue) : JSValue :=
  JObject [(lit "type", JString (lit type)); (lit "tasks", tasks)].

Definition milk : JSValue := JArray [task "t1" "Buy milk" false].
Definition milk_done : JSValue := JArray [task "t1" "Buy milk" true].

Definition overview_empty : JSValue := message "tasks_overview" (JArray []).
Definition added_milk : JSValue := message "task_added" milk.
Definition toggled_milk : JSValue := message "task_toggled" milk_done.
Definition added_without_tasks : JSValue :=
  JObject [(lit "type", JString (lit "task_added"))].
Definition pong_with_tasks : JSValue := message "pong" milk.

Definition known_values : list JSValue :=
  [overview_empty; added_milk; toggled_milk; added_without_tasks;
   pong_with_tasks; JNull; JArray []; milk; milk_done].

Definition parse (text : JSString) : option JSValue :=
  head (filter (fun v => string_eqb (stringify v) text) known_values).

(** A frame that is not JSON. *)
Definition garbage : JSString := lit "{not json".

(** A task whose [id] is the number 0, and a snapshot that carries it. *)
Definition task_zero : JSValue :=
  JObject [(lit "id", JNumber 0); (lit "text", JString (lit "Buy milk"));
           (lit "completed", JBool false)].

Definition overview_zero : JSValue := message "tasks_overview" (JArray [task_zero]).

(** A parser that reads back the frame of one value and nothing else. *)
Definition parse_only (v : JSValue) (text : JSString) : option JSValue :=
  if string_eqb text (stringify v) then Some v else None.

End Example.

(** ** The page: [store/todo.ts] and [App.tsx] *)

Section Page.

(** [JSON.parse] ([None]: it throws a [SyntaxError]) and [JSON.stringify],
    the runtime's. *)
Variable JSON_parse : JSString -> option JSValue.
Variable JSON_stringify : JSValue -> JSString.

(** The format in which the store's snapshot is kept in storage: an
    implementation detail of the persistence layer. [None]: the entry
    cannot be read back. *)
Variable storage_encode : JSValue -> JSString.
Variable storage_decode : JSString -> option JSValue.

Set Default Proof Using "Type".

(** *** store/todo.ts *)

(** [name: 'todo-store'] *)
Definition persist_name : JSString := lit "todo-store".

(** [tasks: []] *)
Definition initial_tasks : JSValue := JArray [].

(** Modelled from the spec: the [persist] middleware of [zustand/middleware]
    and its [createJSONStorage], which are not among the sources. After a
    write to the store the held list is written to the storage entry of the
    fixed name; storage-write failures are not modelled. *)
Definition persist_write : M unit :=
  modify (fun s =>
    let value := storage_encode (tasks s) in
    with_storage (<[persist_name := value]> (sessionStorage s))
                 (storageTrace s ++ [SetItem persist_name value]) s).

(** Modelled from the spec: the store's [set] of [zustand], not among the
    sources. The fields the partial state names replace the held ones (the
    store has one data field, so the partial state names it or not), and
    [persist] then writes the result through. *)
Definition set (partial_tasks : option JSValue) : M unit :=
  do* modify (fun s => match partial_tasks with
                       | Some v => with_tasks v s
                       | None => s
                       end) in
  persist_write.

(** [setTasks: (newTasks) => { set({ tasks: newTasks }) }] *)
Definition setTasks (newTasks : JSValue) : M unit :=
  set (Some newTasks).

(** The read path of the View: [useTodoStore().tasks]. *)
Definition getTasks : M JSValue := gets tasks.

(** Modelled from the spec: store initialisation under [persist], not among
    the sources. The storage entry is read once; a readable entry replaces
    the initial empty list. *)
Definition hydrate (storage : gmap JSString JSString) : JSValue :=
  match storage !! persist_name with
  | Some entry =>
      match storage_decode entry with
      | Some snapshot => snapshot
      | None => initial_tasks
      end
  | None => initial_tasks
  end.

(** A page load over the given session storage: the store module is
    evaluated (the store is created and hydrated), the module body of
    [App.tsx] prints its three URLs, and [App] renders for the first time
    with its [useState] and [useRef] initial values ([nodeConnected], which
    nothing ever sets, is left out). No socket exists before the effect
    runs. *)
Definition load (storage : gmap JSString JSString) : AppState :=
  {| tasks := hydrate storage;
     sessionStorage := storage;
     storageTrace := [GetItem persist_name];
     wsConnected := false;
     newTaskText := [];
     wsRef := None;
     console := [mkLogEntry LOG (lit "BASE_URL:") [ArgEnv];
                 mkLogEntry LOG (lit "PROXY_TARGET:") [ArgEnv];
                 mkLogEntry LOG (lit "WEBSOCKET_URL:") [ArgEnv]] |}.

(** A reload of the page keeps the session storage and nothing else. *)
Definition reload (s : AppState) : AppState := load (sessionStorage s).

(** *** App.tsx: outbound messages *)

Definition get_tasks_message : JSValue :=
  JObject [(lit "action", JString (lit "get_tasks"))].

Definition add_task_message (text : JSString) : JSValue :=
  JObject [(lit "action", JString (lit "add_task")); (lit "text", JString text)].

(** The [id] is whatever value the caller passes: the [string] annotation of
    [handleToggleComplete] is erased at run time.  An [undefined] id is a
    property of the object all the same; [JSON.stringify] decides how the
    frame shows it. *)
Definition toggle_task_message (id : JSValue) : JSValue :=
  JObject [(lit "action", JString (lit "toggle_task")); (lit "id", id)].

(** [sendWsMessage] *)
Definition sendWsMessage (message : JSValue) : M unit :=
  let* cur := gets wsRef in
  if ws_is_open cur then
    ws_call (WebSocket_send (JSON_stringify message))
  else ret tt.

(** [wsConnected && wsRef.current] *)
Definition can_send : M bool :=
  let* connected := gets wsConnected in
  let* cur := gets wsRef in
  ret (connected && bool_decide (is_Some cur)).

(** [fetchTasks] *)
Definition fetchTasks : M unit :=
  let* ok := can_send in
  if ok then
    sendWsMessage get_tasks_message
  else
    console_warn "Cannot fetch tasks: WebSocket not connected" [].

(** [handleAddTask] *)
Definition handleAddTask : M unit :=
  let* text := gets newTaskText in
  if negb (ToBoolean (JString (trim text))) then ret tt
  else
    let* ok := can_send in
    if ok then
      do* sendWsMessage (add_task_message text) in
      setNewTaskText []
    else
      console_warn "Cannot add task: WebSocket not connected" [].

(** [handleToggleComplete] *)
Definition handleToggleComplete (taskId : JSValue) : M unit :=
  let* ok := can_send in
  if ok then
    sendWsMessage (toggle_task_message taskId)
  else
    console_warn "Cannot toggle task: WebSocket not connected" [].

(** *** App.tsx: the effect *)

(** [const ws = new WebSocket(WEBSOCKET_URL); wsRef.current = ws] *)
Definition connect : M unit := modify (with_wsRef (Some WebSocket_new)).

(** [ws.onopen] *)
Definition onopen : M unit :=
  do* console_log "WebSocket connection opened:" [ArgEvent] in
  do* setWsConnected true in
  ws_call (WebSocket_send (JSON_stringify get_tasks_message)).

(** [data.type === tag] *)
Definition type_is (data : JSValue) (tag : string) : M bool :=
  let* t := lift (Get data f_type) in
  ret (strict_equals_string t (lit tag)).

(** [ws.onmessage], [event.data] being the frame's text *)
Definition onmessage (event_data : JSString) : M unit :=
  do* console_log "WebSocket message received:" [ArgString event_data] in
  try_catch
    (let* data := lift (match JSON_parse event_data with
                        | Some v => inr v
                        | None => inl SyntaxError
                        end) in
     do* console_log "Parsed WebSocket message:" [ArgValue data] in
     let* recognised := orM (type_is data "tasks_overview")
                            (orM (type_is data "task_added")
                                 (type_is data "task_toggled")) in
     if recognised then
       let* data_tasks := lift (Get data f_tasks) in
       if ToBoolean data_tasks then
         do* console_log "Updating tasks from WebSocket:" [ArgValue data_tasks] in
         setTasks data_tasks
       else ret tt
     else ret tt)
    (fun error =>
       console_error "Error parsing WebSocket message:" [ArgExn error]).

(** [ws.onclose] *)
Definition onclose : M unit :=
  do* console_log "WebSocket connection closed:" [ArgEvent] in
  setWsConnected false.

(** [ws.onerror] *)
Definition onerror : M unit :=
  do* console_error "WebSocket error:" [ArgEvent] in
  setWsConnected false.

(** The cleanup the effect returns, run on unmount. *)
Definition cleanup : M unit :=
  do* console_log "Closing WebSocket connection" [] in
  let* cur := gets wsRef in
  if ws_is_open cur then
    ws_call (fun ws => inr (WebSocket_close ws))
  else ret tt.

(** The component once its effect has run. *)
Definition mount (s : AppState) : AppState := exec connect s.

(** *** The events the page reacts to *)

(** A user intent: the Add button (or Enter in the input), a task's
    checkbox, the Refresh button. A checkbox passes its task's [id], which
    is whatever value the server sent in that place. *)
Inductive Intent :=
| AddTask
| ToggleTask (taskId : JSValue)
| Refresh.

Definition intent_handler (i : Intent) : M unit :=
  match i with
  | AddTask => handleAddTask
  | ToggleTask taskId => handleToggleComplete taskId
  | Refresh => fetchTasks
  end.

(** The message an intent asks to send. *)
Definition intent_message (i : Intent) (s : AppState) : JSValue :=
  match i with
  | AddTask => add_task_message (newTaskText s)
  | ToggleTask taskId => toggle_task_message taskId
  | Refresh => get_tasks_message
  end.

Inductive Event :=
| InputChange (text : JSString)
| User (i : Intent)
| TransportOpen
| TransportMessage (event_data : JSString)
| TransportClosing
| TransportClosed
| TransportFailed
| Unmount.

Definition socket_state (s : AppState) : option ReadyState :=
  option_map readyState (wsRef s).

(** The user agent moves the socket to a ready state before it fires the
    event that reports it. *)
Definition set_readyState (r : ReadyState) (s : AppState) : AppState :=
  with_wsRef (option_map (fun ws => mkWebSocket r (outbound ws)) (wsRef s)) s.

(** One event of the browser's event loop. The socket's events follow the
    WebSocket API: [open] is fired once, on a connecting socket, which is open
    by then; [message] only on an open socket; the peer may start the closing
    handshake of an open socket; [close] is fired on a socket that is not yet
    closed, which is closed by then; a failed connection fires [error] and
    then [close]. An event that cannot occur in the state leaves it as it
    is. An exception that escapes a handler is reported by the user agent
    and the page goes on. Each event is taken once the page has rendered
    after the one before; a render that throws, and what React does then,
    is outside. *)
Definition dispatch (e : Event) (s : AppState) : AppState :=
  match e with
  | InputChange text => exec (setNewTaskText text) s
  | User i => exec (intent_handler i) s
  | TransportOpen =>
      match socket_state s with
      | Some CONNECTING => exec onopen (set_readyState OPEN s)
      | _ => s
      end
  | TransportMessage event_data =>
      match socket_state s with
      | Some OPEN => exec (onmessage event_data) s
      | _ => s
      end
  | TransportClosing =>
      match socket_state s with
      | Some OPEN => set_readyState CLOSING s
      | _ => s
      end
  | TransportClosed =>
      match socket_state s with
      | Some CLOSED | None => s
      | Some _ => exec onclose (set_readyState CLOSED s)
      end
  | TransportFailed =>
      match socket_state s with
      | Some CLOSED | None => s
      | Some _ => exec (do* onerror in onclose) (set_readyState CLOSED s)
      end
  | Unmount => exec cleanup s
  end.

Definition run (events : list Event) (s : AppState) : AppState :=
  fold_left (fun acc e => dispatch e acc) events s.

(** Entries written to the console between two states. *)
Definition logged (before after : AppState) : list LogEntry :=
  drop (length (console before)) (console after).

Definition has_level (l : Level) (entries : list LogEntry) : bool :=
  existsb (fun e => Level_eqb (level e) l) entries.

(** The state without its console. *)
Definition silent (s : AppState) : AppState := with_console [] s.

(** The three inbound message types the handler recognises. *)
Definition recognised_types : list JSString :=
  [lit "tasks_overview"; lit "task_added"; lit "task_toggled"].

(** The outbound frames of the protocol; an [add_task] frame carries text
    that does not trim to the empty string. *)
Definition protocol_frame (frame : JSString) : Prop :=
  frame = JSON_stringify get_tasks_message
  \/ (exists text, trim text <> [] /\ frame = JSON_stringify (add_task_message text))
  \/ (exists id, frame = JSON_stringify (toggle_task_message id)).

(** A computation is blind to the console when two states that differ in
    their consoles only give the same completion and states that again
    differ in their consoles only. *)
Definition console_blind {A} (m : M A) : Prop :=
  forall s1 s2, silent s1 = silent s2 ->
    fst (m s1) = fst (m s2) /\ silent (snd (m s1)) = silent (snd (m s2)).

(** The state with entries added to the console. *)
Definition log_entries (entries : list LogEntry) (s : AppState) : AppState :=
  with_console (console s ++ entries) s.

(** The warning each intent logs when it is refused. *)
Definition intent_warning (i : Intent) : string :=
  match i with
  | AddTask => "Cannot add task: WebSocket not connected"
  | ToggleTask _ => "Cannot toggle task: WebSocket not connected"
  | Refresh => "Cannot fetch tasks: WebSocket not connected"
  end.

(** The intent is an add whose text trims to the empty string. *)
Definition rejected_as_blank (i : Intent) (s : AppState) : bool :=
  match i with
  | AddTask => string_eqb (trim (newTaskText s)) []
  | _ => false
  end.

(** The value is an object with the field among its own properties. *)
Definition has_field (v : JSValue) (f : Field) : bool :=
  match v with
  | JObject props => bool_decide (is_Some (own_property props (field_name f)))
  | _ => false
  end.

(** [JSON.parse] throws on the text, or returns [null]. *)
Definition unreadable (parsed : option JSValue) : bool :=
  match parsed with
  | None | Some JNull | Some JUndefined => true
  | Some _ => false
  end.

(** The entries [onmessage] writes. *)
Definition received (event_data : JSString) : LogEntry :=
  mkLogEntry LOG (lit "WebSocket message received:") [ArgString event_data].

Definition parsed (data : JSValue) : LogEntry :=
  mkLogEntry LOG (lit "Parsed WebSocket message:") [ArgValue data].

Definition updating (data_tasks : JSValue) : LogEntry :=
  mkLogEntry LOG (lit "Updating tasks from WebSocket:") [ArgValue data_tasks].

Definition parse_error (error : Exn) : LogEntry :=
  mkLogEntry ERROR (lit "Error parsing WebSocket message:") [ArgExn error].

(** The frame [onopen] sends. *)
Definition get_tasks_frame : JSString := JSON_stringify get_tasks_message.

(** The state after the socket in [wsRef.current], if open, has accepted
    the frame. *)
Definition transmit (frame : JSString) (s : AppState) : AppState :=
  match wsRef s with
  | Some ws =>
      if ReadyState_eqb (readyState ws) OPEN then
        with_wsRef (Some (mkWebSocket OPEN (outbound ws ++ [frame]))) s
      else s
  | None => s
  end.

(** What holds of the socket throughout a connection's lifetime: it has
    accepted protocol frames only, and none while connecting. *)
Definition socket_ok (ws : WebSocket) : Prop :=
  Forall protocol_frame (outbound ws)
  /\ (readyState ws = CONNECTING -> outbound ws = []).

(** A write of the store's entry. *)
Definition is_write (op : StorageOp) : Prop :=
  match op with
  | SetItem key _ => key = persist_name
  | GetItem _ => False
  end.

(** What holds of the storage while the page lives: the entry was read
    once, when the store was created, every later call wrote it, and it
    holds the current list unless the list is still the one hydrated. *)
Definition store_ok (s : AppState) : Prop :=
  (exists writes, storageTrace s = GetItem persist_name :: writes
                  /\ Forall is_write writes)
  /\ (hydrate (sessionStorage s) = tasks s
      \/ sessionStorage s !! persist_name = Some (storage_encode (tasks s))).

(** The part of the state the store owns. *)
Definition store_part (s : AppState)
  : JSValue * gmap JSString JSString * list StorageOp :=
  (tasks s, sessionStorage s, storageTrace s).

(** A computation that leaves the store and its storage alone. *)
Definition keeps_store {A} (m : M A) : Prop :=
  forall s, store_part (snd (m s)) = store_part s.

(** *** App.tsx: the task list the component returns *)

(** The properties the list reads off a task. No prototype defines them,
    so a read on anything but a plain object gives [undefined]. *)
Inductive TaskField := f_id | f_text | f_completed.

Definition task_field_name (f : TaskField) : JSString :=
  match f with
  | f_id => lit "id"
  | f_text => lit "text"
  | f_completed => lit "completed"
  end.

(** [task.id], [task.text], [task.completed]: a read on [null] or
    [undefined] throws. *)
Definition GetTask (task : JSValue) (f : TaskField) : Exn + JSValue :=
  match task with
  | JUndefined | JNull => inl TypeError
  | JObject props =>
      inr (match own_property props (task_field_name f) with
           | Some x => x
           | None => JUndefined
           end)
  | _ => inr JUndefined
  end.

(** One [<li>] of the list: its [key], its [className], the [checked] of
    its checkbox, the argument its [onChange] passes to
    [handleToggleComplete], and the text of its [<span>]. *)
Record TaskRow := mkTaskRow {
  row_key : JSValue;
  row_className : JSString;
  row_checked : JSValue;
  row_toggles : JSValue;
  row_text : JSValue;
}.

(** The body of [tasks.map((task) => ...)]. *)
Definition render_row (task : JSValue) : Exn + TaskRow :=
  match GetTask task f_id with
  | inl e => inl e
  | inr id =>
      match GetTask task f_completed with
      | inl e => inl e
      | inr completed =>
          match GetTask task f_text with
          | inl e => inl e
          | inr text =>
              inr {| row_key := id;
                     row_className :=
                       lit "task-item "
                       ++ (if ToBoolean completed then lit "completed" else []);
                     row_checked := completed;
                     row_toggles := id;
                     row_text := text |}
          end
      end
  end.

(** [tasks.map(...)] over the elements of an array: the first element whose
    row throws ends the rendering. *)
Fixpoint render_rows (items : list JSValue) : Exn + list TaskRow :=
  match items with
  | [] => inr []
  | task :: rest =>
      match render_row task with
      | inl e => inl e
      | inr row =>
          match render_rows rest with
          | inl e => inl e
          | inr rows => inr (row :: rows)
          end
      end
  end.

(** The [<ul>] of rows, or the paragraph "No tasks yet. Add one above!". *)
Inductive TaskPane :=
| TaskList (rows : list TaskRow)
| NoTasks.

(** [tasks.length > 0 ? <ul>...</ul> : <p>...</p>] for a store that holds
    an array, as its type declares, the elements being [items]. *)
Definition render_tasks (items : list JSValue) : Exn + TaskPane :=
  if Nat.ltb 0 (length items) then
    match render_rows items with
    | inl e => inl e
    | inr rows => inr (TaskList rows)
    end
  else inr NoTasks.

(** A field of a task as the list shows it. *)
Definition task_field (f : TaskField) (task : JSValue) : JSValue :=
  match GetTask task f with
  | inr v => v
  | inl _ => JUndefined
  end.

(** [`task-item ${task.completed ? 'completed' : ''}`] *)
Definition task_className (task : JSValue) : JSString :=
  lit "task-item "
  ++ (if ToBoolean (task_field f_completed task) then lit "completed" else []).

(** The change event of a row's checkbox:
    [onChange={() => handleToggleComplete(task.id)}]. *)
Definition checkbox_change (row : TaskRow) : Event :=
  User (ToggleTask (row_toggles row)).

(** [null] or [undefined]. *)
Definition nullish (v : JSValue) : bool :=
  match v with
  | JUndefined | JNull => true
  | _ => false
  end.

(** The event delivers an inbound frame. *)
Definition is_message (e : Event) : bool :=
  match e with
  | TransportMessage _ => true
  | _ => false
  end.

(** The events whose handlers call [send]: a user intent and the socket's
    [open]. *)
Definition may_send (e : Event) : bool :=
  match e with
  | User _ | TransportOpen => true
  | _ => false
  end.

(** The connection flag agrees with the socket: it is set exactly while the
    socket is open or closing. *)
Definition flag_ok (s : AppState) : Prop :=
  wsConnected s = true
  <-> (socket_state s = Some OPEN \/ socket_state s = Some CLOSING).

(** The socket in [wsRef.current] is closing or closed. *)
Definition socket_released (s : AppState) : Prop :=
  exists ws, wsRef s = Some ws /\ released ws = true.

(** ** Properties *)

Arguments lit : simpl never.
Arguments string_eqb : simpl never.

Ltac unfold_handlers :=
  unfold intent_handler, fetchTasks, handleAddTask, handleToggleComplete,
    sendWsMessage, can_send, onopen, onmessage, onclose, onerror, cleanup,
    connect, type_is, setTasks, set, persist_write, getTasks, orM,
    console_log, console_warn, console_error, console_write,
    setWsConnected, setNewTaskText, ws_call, try_catch, bind, ret,
    gets, modify, lift.

Lemma string_eqb_eq (a b : JSString) : string_eqb a b = true <-> a = b.
Proof. unfold string_eqb. apply bool_decide_eq_true. Qed.

Lemma string_eqb_refl (a : JSString) : string_eqb a a = true.
Proof. by apply string_eqb_eq. Qed.

Lemma trim_empty : trim [] = [].
Proof. reflexivity. Qed.

(** *** The store *)

Lemma setTasks_effect (L : JSValue) (s : AppState) :
  setTasks L s =
  (inr tt,
   mkAppState L (<[persist_name := storage_encode L]> (sessionStorage s))
     (storageTrace s ++ [SetItem persist_name (storage_encode L)])
     (wsConnected s) (newTaskText s) (wsRef s) (console s)).
Proof. reflexivity. Qed.

(** C3. Whatever calls of [setTasks] came before, the list read right after
    [setTasks L] is [L]: the held list is replaced, nothing of the earlier
    state is merged into it. *)
Theorem setTasks_then_getTasks (prior : list JSValue) (L : JSValue) (s : AppState) :
  let before := fold_left (fun acc X => exec (setTasks X) acc) prior s in
  let after := exec (setTasks L) before in
  fst (setTasks L before) = inr tt /\ getTasks after = (inr L, after).
Proof. intros before after. split; reflexivity. Qed.

(** *** Blank input *)

(** C7. When the input is empty, or trims to the empty string,
    [handleAddTask] returns at once: the state is left as it is, so no frame
    is built or sent. *)
Theorem handleAddTask_blank (s : AppState) :
  newTaskText s = [] \/ trim (newTaskText s) = [] ->
  handleAddTask s = (inr tt, s) /\ sent (dispatch (User AddTask) s) = sent s.
Proof.
  intros H.
  assert (Hblank : trim (newTaskText s) = []).
  { destruct H as [H | H]; [rewrite H; apply trim_empty | exact H]. }
  assert (Hret : handleAddTask s = (inr tt, s)).
  { unfold_handlers. simpl. rewrite Hblank. reflexivity. }
  split; [exact Hret |].
  unfold dispatch, exec, intent_handler. rewrite Hret. reflexivity.
Qed.

(** *** Unmount *)

(** C9, as amended. The cleanup closes the socket exactly when it is open,
    which starts the closing handshake; a socket in any other ready state is
    left as it is. The socket is therefore released after the cleanup unless
    it was still connecting. *)
Theorem cleanup_closes_open_socket (s : AppState) (ws : WebSocket) :
  wsRef s = Some ws ->
  fst (cleanup s) = inr tt
  /\ wsRef (exec cleanup s)
     = Some (match readyState ws with
             | OPEN => mkWebSocket CLOSING (outbound ws)
             | _ => ws
             end)
  /\ (released (match readyState ws with
                | OPEN => mkWebSocket CLOSING (outbound ws)
                | _ => ws
                end) = true <-> readyState ws <> CONNECTING).
Proof.
  intros Href. unfold exec. unfold_handlers. simpl. rewrite Href. simpl.
  destruct ws as [r out]. destruct r; simpl; try rewrite Href; simpl;
    (split; [reflexivity | split; [reflexivity |]]);
    unfold released; simpl; split; congruence.
Qed.


(** *** Nothing reads the console *)

Lemma silent_fields (s1 s2 : AppState) :
  silent s1 = silent s2 ->
  tasks s1 = tasks s2 /\ sessionStorage s1 = sessionStorage s2
  /\ storageTrace s1 = storageTrace s2 /\ wsConnected s1 = wsConnected s2
  /\ newTaskText s1 = newTaskText s2 /\ wsRef s1 = wsRef s2.
Proof.
  destruct s1, s2. unfold silent, with_console. simpl.
  intros H. injection H. intros. subst. repeat split.
Qed.

Lemma silent_sent (s1 s2 : AppState) : silent s1 = silent s2 -> sent s1 = sent s2.
Proof.
  intros H. apply silent_fields in H. unfold sent.
  destruct H as (_ & _ & _ & _ & _ & ->). reflexivity.
Qed.

Lemma silent_intro (s1 s2 : AppState) :
  tasks s1 = tasks s2 -> sessionStorage s1 = sessionStorage s2 ->
  storageTrace s1 = storageTrace s2 -> wsConnected s1 = wsConnected s2 ->
  newTaskText s1 = newTaskText s2 -> wsRef s1 = wsRef s2 ->
  silent s1 = silent s2.
Proof.
  destruct s1, s2. unfold silent, with_console. simpl. intros. subst. reflexivity.
Qed.

Lemma blind_ret {A} (x : A) : console_blind (ret x).
Proof. intros s1 s2 H. split; [reflexivity | exact H]. Qed.

Lemma blind_lift {A} (r : Exn + A) : console_blind (lift r).
Proof. intros s1 s2 H. split; [reflexivity | exact H]. Qed.

Lemma blind_bind {A B} (m : M A) (k : A -> M B) :
  console_blind m -> (forall x, console_blind (k x)) -> console_blind (bind m k).
Proof.
  intros Hm Hk s1 s2 H. unfold bind.
  destruct (Hm s1 s2 H) as [Hc Hs].
  destruct (m s1) as [[e1 | x1] t1], (m s2) as [[e2 | x2] t2];
    simpl in Hc, Hs; try discriminate; injection Hc as ->.
  - split; [reflexivity | exact Hs].
  - apply Hk. exact Hs.
Qed.

Lemma blind_try_catch (body : M unit) (handler : Exn -> M unit) :
  console_blind body -> (forall e, console_blind (handler e)) ->
  console_blind (try_catch body handler).
Proof.
  intros Hm Hk s1 s2 H. unfold try_catch.
  destruct (Hm s1 s2 H) as [Hc Hs].
  destruct (body s1) as [[e1 | x1] t1], (body s2) as [[e2 | x2] t2];
    simpl in Hc, Hs; try discriminate; injection Hc as ->.
  - apply Hk. exact Hs.
  - split; [reflexivity | exact Hs].
Qed.

Lemma blind_gets {A} (f : AppState -> A) :
  (forall s1 s2, silent s1 = silent s2 -> f s1 = f s2) -> console_blind (gets f).
Proof. intros Hf s1 s2 H. split; [simpl; f_equal; auto | exact H]. Qed.

Lemma blind_modify (f : AppState -> AppState) :
  (forall s1 s2, silent s1 = silent s2 -> silent (f s1) = silent (f s2)) ->
  console_blind (modify f).
Proof. intros Hf s1 s2 H. split; [reflexivity | simpl; auto]. Qed.

Lemma blind_console_write (l : Level) (msg : string) (a : list LogArg) :
  console_blind (console_write l msg a).
Proof.
  apply blind_modify. intros s1 s2 H. apply silent_fields in H.
  apply silent_intro; simpl; tauto.
Qed.

Lemma blind_ws_call (f : WebSocket -> Exn + WebSocket) : console_blind (ws_call f).
Proof.
  intros s1 s2 H. pose proof (silent_fields _ _ H) as (? & ? & ? & ? & ? & Href).
  unfold ws_call. rewrite <- Href.
  destruct (wsRef s1) as [ws |]; [destruct (f ws) |]; simpl;
    (split; [reflexivity |]); try exact H.
  apply silent_intro; simpl; first [assumption | reflexivity].
Qed.

Create HintDb blind.
#[local] Hint Resolve blind_ret blind_lift blind_console_write blind_ws_call : blind.

Ltac blind_step :=
  first
    [ apply blind_bind; [| intros ?]
    | apply blind_try_catch; [| intros ?]
    | apply blind_gets; intros ? ? ?Hs; apply silent_fields in Hs;
      destruct Hs as (? & ? & ? & ? & ? & ?); assumption
    | apply blind_modify; intros ? ? ?Hs; apply silent_fields in Hs;
      destruct Hs as (? & ? & ? & ? & ? & ?); apply silent_intro; simpl;
      congruence
    | solve [auto with blind]
    | match goal with
      | |- console_blind (if ?b then _ else _) => destruct b
      | |- console_blind (match ?x with _ => _ end) => destruct x
      end ].

Ltac blind :=
  unfold intent_handler, fetchTasks, handleAddTask, handleToggleComplete,
    sendWsMessage, can_send, onopen, onmessage, onclose, onerror, cleanup,
    type_is, setTasks, set, persist_write, orM, console_log, console_warn,
    console_error, setWsConnected, setNewTaskText;
  repeat blind_step.

Lemma blind_intent (i : Intent) : console_blind (intent_handler i).
Proof. destruct i; blind. Qed.

Lemma blind_onopen : console_blind onopen.
Proof. blind. Qed.

Lemma blind_onmessage (event_data : JSString) : console_blind (onmessage event_data).
Proof. blind. Qed.

Lemma blind_onclose : console_blind onclose.
Proof. blind. Qed.

Lemma blind_onerror : console_blind onerror.
Proof. blind. Qed.

Lemma blind_cleanup : console_blind cleanup.
Proof. blind. Qed.

Lemma blind_exec (m : M unit) (s1 s2 : AppState) :
  console_blind m -> silent s1 = silent s2 -> silent (exec m s1) = silent (exec m s2).
Proof. intros Hm H. apply (Hm s1 s2 H). Qed.

Lemma silent_set_readyState (r : ReadyState) (s1 s2 : AppState) :
  silent s1 = silent s2 -> silent (set_readyState r s1) = silent (set_readyState r s2).
Proof.
  intros H. pose proof (silent_fields _ _ H) as (? & ? & ? & ? & ? & Href).
  apply silent_intro; simpl; try assumption. by rewrite Href.
Qed.

Lemma dispatch_silent (e : Event) (s1 s2 : AppState) :
  silent s1 = silent s2 -> silent (dispatch e s1) = silent (dispatch e s2).
Proof.
  intros H. pose proof (silent_fields _ _ H) as (? & ? & ? & ? & ? & Href).
  assert (Hst : socket_state s1 = socket_state s2)
    by (unfold socket_state; by rewrite Href).
  destruct e; simpl; rewrite <- ?Hst.
  - apply blind_exec; [blind | exact H].
  - apply blind_exec; [apply blind_intent | exact H].
  - destruct (socket_state s1) as [[]|]; try exact H.
    apply blind_exec; [apply blind_onopen | by apply silent_set_readyState].
  - destruct (socket_state s1) as [[]|]; try exact H.
    apply blind_exec; [apply blind_onmessage | exact H].
  - destruct (socket_state s1) as [[]|]; try exact H.
    by apply silent_set_readyState.
  - destruct (socket_state s1) as [[]|]; try exact H;
      (apply blind_exec; [apply blind_onclose | by apply silent_set_readyState]).
  - destruct (socket_state s1) as [[]|]; try exact H;
      (apply blind_exec;
       [apply blind_bind; [apply blind_onerror | intros; apply blind_onclose]
       | by apply silent_set_readyState]).
  - apply blind_exec; [apply blind_cleanup | exact H].
Qed.

Lemma run_silent (events : list Event) (s1 s2 : AppState) :
  silent s1 = silent s2 -> silent (run events s1) = silent (run events s2).
Proof.
  revert s1 s2. induction events as [| e events IH]; intros s1 s2 H; simpl.
  - exact H.
  - apply IH. by apply dispatch_silent.
Qed.


(** *** Intents while disconnected *)

Lemma logged_app (entries : list LogEntry) (s s' : AppState) :
  console s' = console s ++ entries -> logged s s' = entries.
Proof. intros H. unfold logged. rewrite H. apply drop_app_length. Qed.

Lemma logged_same (s s' : AppState) : console s' = console s -> logged s s' = [].
Proof. intros H. unfold logged. rewrite H. apply drop_all. Qed.

Lemma intent_refused (i : Intent) (s : AppState) :
  wsConnected s = false ->
  intent_handler i s =
  (inr tt, if rejected_as_blank i s then s
           else log_entries [mkLogEntry WARN (lit (intent_warning i)) []] s).
Proof.
  intros Hdown. destruct i; unfold_handlers; simpl; rewrite ?Hdown; simpl;
    try reflexivity.
  destruct (string_eqb (trim (newTaskText s)) []); simpl; rewrite ?Hdown;
    reflexivity.
Qed.

(** C2, as amended. While [wsConnected] is false an intent completes
    normally without sending a frame and without touching the Task List: the
    state changes in its console only, so nothing is kept to be sent later
    and every later run of the page sends the same frames and holds the same
    list as if the intent had not been issued. The intent logs its warning,
    unless it is an add whose text trims to the empty string, which returns
    before the connection is looked at and logs nothing. *)
Theorem intent_while_disconnected (i : Intent) (s : AppState) :
  wsConnected s = false ->
  let s' := dispatch (User i) s in
  fst (intent_handler i s) = inr tt
  /\ sent s' = sent s /\ tasks s' = tasks s /\ silent s' = silent s
  /\ logged s s'
     = (if rejected_as_blank i s then []
        else [mkLogEntry WARN (lit (intent_warning i)) []])
  /\ (forall later : list Event,
        sent (run later s') = sent (run later s)
        /\ tasks (run later s') = tasks (run later s)).
Proof.
  intros Hdown s'. subst s'. unfold dispatch, exec.
  rewrite (intent_refused i s Hdown). simpl.
  assert (Hsilent :
    silent (if rejected_as_blank i s then s
            else log_entries [mkLogEntry WARN (lit (intent_warning i)) []] s)
    = silent s) by (destruct (rejected_as_blank i s); reflexivity).
  repeat split.
  - destruct (rejected_as_blank i s); reflexivity.
  - destruct (rejected_as_blank i s); reflexivity.
  - exact Hsilent.
  - destruct (rejected_as_blank i s); [by apply logged_same | by apply logged_app].
  - apply silent_sent, run_silent, Hsilent.
  - apply (run_silent later) in Hsilent. by apply silent_fields in Hsilent as [-> _].
Qed.

(** The second gate, in [sendWsMessage]: whatever [wsConnected] says, no
    frame leaves unless the socket is open. *)
Lemma intent_while_socket_not_open (i : Intent) (s : AppState) :
  ws_is_open (wsRef s) = false ->
  sent (dispatch (User i) s) = sent s /\ tasks (dispatch (User i) s) = tasks s.
Proof.
  intros Hclosed. unfold dispatch, exec.
  destruct i; unfold_handlers; simpl;
    repeat (match goal with
            | |- context [if ?b then _ else _] => destruct b eqn:?
            end; simpl; rewrite ?Hclosed; simpl);
    split; reflexivity.
Qed.

(** *** Inbound frames *)

(** What the handler does, by the shape of the frame. *)
Lemma onmessage_cases (event_data : JSString) (s : AppState) :
  onmessage event_data s =
  (inr tt,
   match JSON_parse event_data with
   | None => log_entries [received event_data; parse_error SyntaxError] s
   | Some data =>
       match Get data f_type with
       | inl e => log_entries [received event_data; parsed data; parse_error e] s
       | inr t =>
           if existsb (strict_equals_string t) recognised_types then
             match Get data f_tasks with
             | inl e =>
                 log_entries [received event_data; parsed data; parse_error e] s
             | inr data_tasks =>
                 if ToBoolean data_tasks then
                   exec (setTasks data_tasks)
                     (log_entries
                        [received event_data; parsed data; updating data_tasks] s)
                 else log_entries [received event_data; parsed data] s
             end
           else log_entries [received event_data; parsed data] s
       end
   end).
Proof.
  unfold exec, log_entries, received, parsed, updating, parse_error,
    recognised_types.
  unfold_handlers. simpl.
  destruct (JSON_parse event_data) as [data |]; simpl;
    [| by rewrite <- ?app_assoc].
  destruct (Get data f_type) as [e | t]; simpl; [by rewrite <- ?app_assoc |].
  destruct (strict_equals_string t (lit "tasks_overview")); simpl;
    [| destruct (strict_equals_string t (lit "task_added")); simpl;
       [| destruct (strict_equals_string t (lit "task_toggled")); simpl]];
    try (destruct (Get data f_tasks) as [e | data_tasks]; simpl;
         [| destruct (ToBoolean data_tasks); simpl]);
    rewrite <- ?app_assoc; reflexivity.
Qed.


Lemma logged_log_entries (entries : list LogEntry) (s : AppState) :
  logged s (log_entries entries s) = entries.
Proof. by apply logged_app. Qed.

Lemma recognised_tag (type : JSString) :
  In type recognised_types ->
  existsb (strict_equals_string (JString type)) recognised_types = true.
Proof.
  intros H. apply existsb_exists. exists type.
  split; [exact H | apply string_eqb_refl].
Qed.

(** C1. A frame that parses to an object whose [type] is one of the three
    recognised tags and whose [tasks] is an array replaces the Task List
    with that array as it is. Apart from the console, which shows the frame
    and the parsed message, the state after the handler is the state after
    [setTasks] on that array: the tag plays no part in it. *)
Theorem onmessage_snapshot (event_data : JSString)
    (props : list (JSString * JSValue)) (type : JSString)
    (items : list JSValue) (s : AppState) :
  JSON_parse event_data = Some (JObject props) ->
  own_property props (lit "type") = Some (JString type) ->
  In type recognised_types ->
  own_property props (lit "tasks") = Some (JArray items) ->
  let s' := exec (onmessage event_data) s in
  fst (onmessage event_data s) = inr tt
  /\ tasks s' = JArray items
  /\ silent s' = silent (exec (setTasks (JArray items)) s)
  /\ logged s s'
     = [received event_data; parsed (JObject props); updating (JArray items)].
Proof.
  intros Hparse Htype Htag Htasks s'. subst s'. unfold exec at 1 2 4.
  rewrite onmessage_cases, Hparse. unfold Get, field_name.
  rewrite Htype, Htasks, (recognised_tag type Htag). simpl.
  repeat split. unfold logged. simpl. apply drop_app_length.
Qed.

(** C4, as amended. A frame that does not parse, or that parses to a value
    without a [tasks] field, changes nothing but the console, and the
    handler completes normally. An error is logged when [JSON.parse] throws,
    and when it returns [null] (reading a field of it throws); a frame that
    parses to anything else and lacks [tasks] is dropped without an error
    entry. *)
Theorem onmessage_malformed (event_data : JSString) (s : AppState) :
  JSON_parse event_data = None
  \/ (exists data, JSON_parse event_data = Some data
                   /\ has_field data f_tasks = false) ->
  let s' := exec (onmessage event_data) s in
  fst (onmessage event_data s) = inr tt
  /\ tasks s' = tasks s
  /\ silent s' = silent s
  /\ has_level ERROR (logged s s') = unreadable (JSON_parse event_data).
Proof.
  intros H s'. subst s'. unfold exec. rewrite onmessage_cases.
  destruct H as [Hparse | (data & Hparse & Hfield)]; rewrite Hparse.
  { simpl. repeat split. by rewrite logged_log_entries. }
  assert (Htasks : forall t, Get data f_type = inr t ->
                             Get data f_tasks = inr JUndefined).
  { intros t Ht. destruct data; simpl in *; try discriminate; try reflexivity.
    apply bool_decide_eq_false in Hfield.
    destruct (own_property props (lit "tasks")); [| reflexivity].
    exfalso. apply Hfield. by eexists. }
  destruct (Get data f_type) as [e | t] eqn:Htype.
  { assert (Hread : unreadable (Some data) = true)
      by (destruct data; simpl in Htype; try discriminate; reflexivity).
    rewrite Hread. simpl. repeat split. by rewrite logged_log_entries. }
  assert (Hread : unreadable (Some data) = false)
    by (destruct data; simpl in Htype; try discriminate; reflexivity).
  rewrite (Htasks t eq_refl), Hread.
  destruct (existsb (strict_equals_string t) recognised_types);
    simpl; repeat split; by rewrite logged_log_entries.
Qed.

(** C10. A frame that parses to a value whose [type] reads as anything but
    one of the three recognised tags is ignored, whatever else it carries
    (a [tasks] field included): the handler completes normally, nothing but
    the console changes, and the console gets the two entries that show the
    frame and the parsed message, no warning and no error. *)
Theorem onmessage_unrecognised (event_data : JSString) (data t : JSValue)
    (s : AppState) :
  JSON_parse event_data = Some data ->
  Get data f_type = inr t ->
  existsb (strict_equals_string t) recognised_types = false ->
  let s' := exec (onmessage event_data) s in
  fst (onmessage event_data s) = inr tt
  /\ tasks s' = tasks s
  /\ silent s' = silent s
  /\ logged s s' = [received event_data; parsed data].
Proof.
  intros Hparse Htype Htag s'. subst s'. unfold exec.
  rewrite onmessage_cases, Hparse, Htype, Htag. simpl.
  repeat split. apply logged_log_entries.
Qed.

(** The test on the tag, read as a statement about the tag. *)
Lemma unrecognised_iff (t : JSValue) :
  existsb (strict_equals_string t) recognised_types = false
  <-> forall tag, In tag recognised_types -> t <> JString tag.
Proof.
  split.
  - intros H tag Hin ->. rewrite (recognised_tag tag Hin) in H. discriminate.
  - intros H. destruct (existsb _ _) eqn:E; [| reflexivity].
    apply existsb_exists in E as (tag & Hin & Heq).
    destruct t; simpl in Heq; try discriminate.
    apply string_eqb_eq in Heq. subst. by destruct (H tag Hin).
Qed.


(** *** A connection's lifetime *)

(** What an intent does, by the state it is issued in. *)
Lemma intent_cases (i : Intent) (s : AppState) :
  intent_handler i s =
  (inr tt,
   if rejected_as_blank i s then s
   else if wsConnected s && bool_decide (is_Some (wsRef s)) then
     let s1 := transmit (JSON_stringify (intent_message i s)) s in
     match i with
     | AddTask => with_newTaskText [] s1
     | _ => s1
     end
   else log_entries [mkLogEntry WARN (lit (intent_warning i)) []] s).
Proof.
  unfold transmit, log_entries.
  destruct i; unfold_handlers; simpl;
    try destruct (string_eqb (trim (newTaskText s)) []); simpl;
    try reflexivity;
    (destruct (wsConnected s); simpl; [| reflexivity]);
    (destruct (wsRef s) as [[[] out] |] eqn:Href; simpl;
     repeat (rewrite Href; simpl); reflexivity).
Qed.

Lemma intent_frame_ok (i : Intent) (s : AppState) :
  rejected_as_blank i s = false ->
  protocol_frame (JSON_stringify (intent_message i s)).
Proof.
  intros Hblank. destruct i; simpl.
  - right; left. exists (newTaskText s). split; [| reflexivity].
    intros Htrim. simpl in Hblank. rewrite Htrim in Hblank. discriminate.
  - right; right. by eexists.
  - by left.
Qed.

Lemma wsRef_transmit (frame : JSString) (s : AppState) (ws : WebSocket) :
  wsRef s = Some ws ->
  wsRef (transmit frame s)
  = Some (if ReadyState_eqb (readyState ws) OPEN
          then mkWebSocket OPEN (outbound ws ++ [frame]) else ws).
Proof.
  intros Href. unfold transmit. rewrite Href.
  destruct (ReadyState_eqb (readyState ws) OPEN); [reflexivity | exact Href].
Qed.

Lemma wsRef_intent (i : Intent) (s : AppState) (ws : WebSocket) :
  wsRef s = Some ws ->
  wsRef (dispatch (User i) s) = Some ws
  \/ (readyState ws = OPEN /\ wsConnected s = true
      /\ rejected_as_blank i s = false
      /\ wsRef (dispatch (User i) s)
         = Some (mkWebSocket OPEN
                   (outbound ws ++ [JSON_stringify (intent_message i s)]))).
Proof.
  intros Href. unfold dispatch, exec. rewrite intent_cases. simpl.
  destruct (rejected_as_blank i s); [by left |].
  destruct (wsConnected s); simpl; [| by left].
  rewrite Href. simpl.
  assert (Hcase :
    wsRef (transmit (JSON_stringify (intent_message i s)) s) = Some ws
    \/ (readyState ws = OPEN
        /\ wsRef (transmit (JSON_stringify (intent_message i s)) s)
           = Some (mkWebSocket OPEN
                     (outbound ws ++ [JSON_stringify (intent_message i s)])))).
  { rewrite (wsRef_transmit _ s ws Href).
    destruct (readyState ws); simpl; auto. }
  destruct i; simpl; destruct Hcase as [H | [Hopen H]]; auto.
Qed.

Lemma wsRef_onmessage (event_data : JSString) (s : AppState) :
  wsRef (exec (onmessage event_data) s) = wsRef s.
Proof.
  unfold exec. rewrite onmessage_cases. simpl.
  repeat case_match; reflexivity.
Qed.

Lemma open_effect (s : AppState) (ws : WebSocket) :
  wsRef s = Some ws -> readyState ws = CONNECTING ->
  wsRef (dispatch TransportOpen s)
  = Some (mkWebSocket OPEN (outbound ws ++ [get_tasks_frame]))
  /\ wsConnected (dispatch TransportOpen s) = true
  /\ tasks (dispatch TransportOpen s) = tasks s.
Proof.
  intros Href Hready. unfold dispatch, socket_state. rewrite Href. simpl.
  rewrite Hready. unfold exec, set_readyState. unfold_handlers. simpl.
  rewrite Href. simpl. repeat split.
Qed.

(** Every event keeps the socket, keeps it in order, and at most adds to
    what it has accepted. *)
Lemma dispatch_socket (e : Event) (s : AppState) (ws : WebSocket) :
  wsRef s = Some ws -> socket_ok ws ->
  exists ws', wsRef (dispatch e s) = Some ws' /\ socket_ok ws'
              /\ exists more, outbound ws' = outbound ws ++ more.
Proof.
  intros Href [Hframes Hidle].
  assert (Hsame : exists ws', Some ws = Some ws' /\ socket_ok ws'
                    /\ exists more, outbound ws' = outbound ws ++ more).
  { exists ws. repeat split; try assumption. exists []. by rewrite app_nil_r. }
  assert (Hshut : forall r, r = CLOSING \/ r = CLOSED ->
            exists ws', Some (mkWebSocket r (outbound ws)) = Some ws'
              /\ socket_ok ws' /\ exists more, outbound ws' = outbound ws ++ more).
  { intros r Hr. eexists. split; [reflexivity |]. repeat split; simpl.
    - exact Hframes.
    - intros ->. destruct Hr; discriminate.
    - exists []. by rewrite app_nil_r. }
  destruct e.
  - simpl. unfold exec. unfold_handlers. simpl. by rewrite Href.
  - destruct (wsRef_intent i s ws Href) as [-> | (Hopen & _ & Hblank & ->)];
      [exact Hsame |].
    eexists. split; [reflexivity |]. repeat split; simpl.
    + apply Forall_app. split; [exact Hframes |].
      constructor; [by apply intent_frame_ok | constructor].
    + discriminate.
    + by eexists.
  - destruct (readyState ws) eqn:Hready.
    2-4: unfold dispatch, socket_state; rewrite Href; simpl; rewrite Hready;
         by rewrite Href.
    destruct (open_effect s ws Href Hready) as (-> & _ & _).
    eexists. split; [reflexivity |]. repeat split; simpl.
    + apply Forall_app. split; [exact Hframes |].
      constructor; [by left | constructor].
    + discriminate.
    + by eexists.
  - unfold dispatch, socket_state. rewrite Href. simpl.
    destruct (readyState ws); rewrite ?wsRef_onmessage, Href; exact Hsame.
  - unfold dispatch, socket_state. rewrite Href. simpl.
    destruct (readyState ws) eqn:Hready; try (rewrite Href; exact Hsame).
    unfold set_readyState. simpl. rewrite Href. simpl. apply Hshut. by left.
  - unfold dispatch, socket_state. rewrite Href. simpl.
    destruct (readyState ws) eqn:Hready; try (rewrite Href; exact Hsame);
      unfold exec, set_readyState; unfold_handlers; simpl; rewrite Href; simpl;
      apply Hshut; by right.
  - unfold dispatch, socket_state. rewrite Href. simpl.
    destruct (readyState ws) eqn:Hready; try (rewrite Href; exact Hsame);
      unfold exec, set_readyState; unfold_handlers; simpl; rewrite Href; simpl;
      apply Hshut; by right.
  - unfold dispatch, exec. unfold_handlers. simpl. rewrite Href. simpl.
    destruct (readyState ws) eqn:Hready; simpl; rewrite ?Href; simpl;
      try exact Hsame.
    unfold WebSocket_close. rewrite Hready. apply Hshut. by left.
Qed.

Lemma run_socket (events : list Event) (s : AppState) (ws : WebSocket) :
  wsRef s = Some ws -> socket_ok ws ->
  exists ws', wsRef (run events s) = Some ws' /\ socket_ok ws'
              /\ exists more, outbound ws' = outbound ws ++ more.
Proof.
  revert s ws. induction events as [| e events IH]; intros s ws Href Hok; simpl.
  - exists ws. repeat split; try assumption; try apply Hok.
    exists []. by rewrite app_nil_r.
  - destruct (dispatch_socket e s ws Href Hok) as (ws1 & Href1 & Hok1 & more1 & Hout1).
    destruct (IH _ ws1 Href1 Hok1) as (ws2 & Href2 & Hok2 & more2 & Hout2).
    exists ws2. repeat split; try assumption; try apply Hok2.
    exists (more1 ++ more2). by rewrite Hout2, Hout1, app_assoc.
Qed.

Lemma mount_socket (storage : gmap JSString JSString) :
  wsRef (mount (load storage)) = Some WebSocket_new /\ socket_ok WebSocket_new.
Proof. split; [reflexivity |]. split; [constructor | reflexivity]. Qed.

Lemma reachable_socket (storage : gmap JSString JSString) (events : list Event) :
  exists ws, wsRef (run events (mount (load storage))) = Some ws /\ socket_ok ws.
Proof.
  destruct (mount_socket storage) as [Href Hok].
  destruct (run_socket events _ _ Href Hok) as (ws & ? & ? & _). eauto.
Qed.


(** C5. In a connection's lifetime nothing is sent while the socket is
    connecting, whatever the user does meanwhile; the transition to the open
    socket sets [wsConnected] and sends one frame, the serialised
    [{ action: "get_tasks" }]; and whatever happens afterwards, that frame
    stays the first the socket has accepted, ahead of every frame a user
    intent sends. *)
Theorem get_tasks_sent_first (storage : gmap JSString JSString)
    (before after : list Event) :
  let s := run before (mount (load storage)) in
  socket_state s = Some CONNECTING ->
  let s' := dispatch TransportOpen s in
  sent s = []
  /\ socket_state s' = Some OPEN
  /\ wsConnected s' = true
  /\ sent s' = [get_tasks_frame]
  /\ exists rest, sent (run after s') = get_tasks_frame :: rest.
Proof.
  intros s Hstate s'.
  destruct (reachable_socket storage before) as (ws & Href & Hframes & Hidle).
  fold s in Href.
  assert (Hready : readyState ws = CONNECTING).
  { unfold socket_state in Hstate. rewrite Href in Hstate. by injection Hstate. }
  assert (Hnone : outbound ws = []) by auto.
  destruct (open_effect s ws Href Hready) as (Href' & Hconn & _).
  fold s' in Href', Hconn. rewrite Hnone in Href'. simpl in Href'.
  assert (Hok' : socket_ok (mkWebSocket OPEN [get_tasks_frame])).
  { split; [| discriminate]. constructor; [by left | constructor]. }
  destruct (run_socket after s' _ Href' Hok') as (ws2 & Href2 & _ & more & Hout).
  unfold sent, socket_state. rewrite Href, Href', Href2, Hnone, Hout.
  repeat split; try assumption. by exists more.
Qed.





(** *** The persisted snapshot *)

Lemma keeps_ret {A} (x : A) : keeps_store (ret x).
Proof. intros s. reflexivity. Qed.

Lemma keeps_gets {A} (f : AppState -> A) : keeps_store (gets f).
Proof. intros s. reflexivity. Qed.

Lemma keeps_bind {A B} (m : M A) (k : A -> M B) :
  keeps_store m -> (forall x, keeps_store (k x)) -> keeps_store (bind m k).
Proof.
  intros Hm Hk s. unfold bind. specialize (Hm s).
  destruct (m s) as [[e | x] s1]; simpl in *; [exact Hm |].
  by rewrite Hk.
Qed.

Lemma keeps_console_write (l : Level) (msg : string) (a : list LogArg) :
  keeps_store (console_write l msg a).
Proof. intros s. reflexivity. Qed.

Lemma keeps_setWsConnected (b : bool) : keeps_store (setWsConnected b).
Proof. intros s. reflexivity. Qed.

Lemma keeps_setNewTaskText (t : JSString) : keeps_store (setNewTaskText t).
Proof. intros s. reflexivity. Qed.

Lemma keeps_ws_call (f : WebSocket -> Exn + WebSocket) : keeps_store (ws_call f).
Proof.
  intros s. unfold ws_call.
  destruct (wsRef s) as [ws |]; [destruct (f ws) |]; reflexivity.
Qed.

Create HintDb keeps.
#[local] Hint Resolve keeps_ret keeps_gets keeps_console_write
  keeps_setWsConnected keeps_setNewTaskText keeps_ws_call : keeps.

Ltac keeps_step :=
  first
    [ apply keeps_bind; [| intros ?]
    | solve [auto with keeps]
    | match goal with
      | |- keeps_store (if ?b then _ else _) => destruct b
      end ].

Ltac keeps :=
  unfold intent_handler, fetchTasks, handleAddTask, handleToggleComplete,
    sendWsMessage, can_send, onopen, onclose, onerror, cleanup,
    console_log, console_warn, console_error;
  repeat keeps_step.

Lemma keeps_intent (i : Intent) : keeps_store (intent_handler i).
Proof. destruct i; keeps. Qed.

Lemma keeps_onopen : keeps_store onopen.
Proof. keeps. Qed.

Lemma keeps_onclose : keeps_store onclose.
Proof. keeps. Qed.

Lemma keeps_onerror : keeps_store onerror.
Proof. keeps. Qed.

Lemma keeps_cleanup : keeps_store cleanup.
Proof. keeps. Qed.

Lemma store_ok_part (s s' : AppState) :
  store_part s' = store_part s -> store_ok s -> store_ok s'.
Proof.
  unfold store_part, store_ok. intros H. injection H as -> -> ->. tauto.
Qed.

Lemma store_ok_setTasks (L : JSValue) (s : AppState) :
  store_ok s -> store_ok (exec (setTasks L) s).
Proof.
  intros [(writes & Htrace & Hwrites) _]. unfold exec. rewrite setTasks_effect.
  unfold store_ok. simpl. split.
  - exists (writes ++ [SetItem persist_name (storage_encode L)]).
    rewrite Htrace. split; [reflexivity |].
    apply Forall_app. split; [exact Hwrites |].
    constructor; [reflexivity | constructor].
  - right. apply lookup_insert_eq.
Qed.

Lemma store_ok_onmessage (event_data : JSString) (s : AppState) :
  store_ok s -> store_ok (exec (onmessage event_data) s).
Proof.
  intros Hok. unfold exec at 1. rewrite onmessage_cases. simpl.
  repeat case_match;
    try (apply store_ok_setTasks);
    by apply (store_ok_part s).
Qed.

Lemma dispatch_store (e : Event) (s : AppState) :
  store_ok s -> store_ok (dispatch e s).
Proof.
  intros Hok.
  assert (Hready : forall r, store_ok (set_readyState r s))
    by (intros r; by apply (store_ok_part s)).
  destruct e; simpl.
  - by apply (store_ok_part s).
  - apply (store_ok_part s); [apply keeps_intent | exact Hok].
  - destruct (socket_state s) as [[] |]; try exact Hok.
    eapply store_ok_part; [apply keeps_onopen | apply Hready].
  - destruct (socket_state s) as [[] |]; try exact Hok.
    by apply store_ok_onmessage.
  - destruct (socket_state s) as [[] |]; exact Hok.
  - destruct (socket_state s) as [[] |]; try exact Hok;
      (eapply store_ok_part; [apply keeps_onclose | apply Hready]).
  - destruct (socket_state s) as [[] |]; try exact Hok;
      (eapply store_ok_part;
       [apply keeps_bind; [apply keeps_onerror | intros; apply keeps_onclose]
       | apply Hready]).
  - apply (store_ok_part s); [apply keeps_cleanup | exact Hok].
Qed.

Lemma run_store (events : list Event) (s : AppState) :
  store_ok s -> store_ok (run events s).
Proof.
  revert s. induction events as [| e events IH]; intros s Hok; simpl.
  - exact Hok.
  - by apply IH, dispatch_store.
Qed.

Lemma mount_store (storage : gmap JSString JSString) :
  store_ok (mount (load storage)).
Proof.
  split; [| by left]. exists []. split; [reflexivity | constructor].
Qed.

(** C8. Over the page's life the storage entry ['todo-store'] is read once,
    as the first storage call, when the store is created; every other call
    is a write of that entry. A [setTasks] call writes the serialised new
    list to it. A snapshot that the storage format reads back is the list
    of the store after a reload, at which point no socket exists yet, and
    still is when the reloaded page opens its connection. *)
Theorem persisted_snapshot (storage : gmap JSString JSString)
    (events : list Event) (L : JSValue) :
  let s := run events (mount (load storage)) in
  let s1 := exec (setTasks L) s in
  storage_decode (storage_encode (tasks s)) = Some (tasks s) ->
  (sessionStorage s1 !! persist_name = Some (storage_encode L)
   /\ storageTrace s1 = storageTrace s ++ [SetItem persist_name (storage_encode L)])
  /\ (exists writes, storageTrace s = GetItem persist_name :: writes
                     /\ Forall is_write writes)
  /\ tasks (reload s) = tasks s
  /\ wsRef (reload s) = None
  /\ tasks (mount (reload s)) = tasks s
  /\ socket_state (mount (reload s)) = Some CONNECTING.
Proof.
  intros s s1 Hcodec.
  destruct (run_store events _ (mount_store storage)) as [Htrace Hentry].
  fold s in Htrace, Hentry.
  assert (Hreload : hydrate (sessionStorage s) = tasks s).
  { destruct Hentry as [H | H]; [exact H |].
    unfold hydrate. by rewrite H, Hcodec. }
  repeat split; try exact Hreload; try exact Htrace.
  subst s1. unfold exec. rewrite setTasks_effect. simpl. apply lookup_insert_eq.
Qed.


(** ** Further properties of the handlers *)

(** *** Inbound frames, whatever they hold *)

Lemma wsConnected_onmessage (event_data : JSString) (s : AppState) :
  wsConnected (exec (onmessage event_data) s) = wsConnected s.
Proof.
  unfold exec. rewrite onmessage_cases. simpl.
  repeat case_match; reflexivity.
Qed.

Lemma newTaskText_onmessage (event_data : JSString) (s : AppState) :
  newTaskText (exec (onmessage event_data) s) = newTaskText s.
Proof.
  unfold exec. rewrite onmessage_cases. simpl.
  repeat case_match; reflexivity.
Qed.

(** X9. On every frame, parsable or not, the handler completes normally,
    and it never sends a frame, never touches the socket, the connection
    flag or the input. *)
Theorem onmessage_never_sends (event_data : JSString) (s : AppState) :
  let s' := exec (onmessage event_data) s in
  fst (onmessage event_data s) = inr tt
  /\ wsRef s' = wsRef s
  /\ sent s' = sent s
  /\ wsConnected s' = wsConnected s
  /\ newTaskText s' = newTaskText s.
Proof.
  intros s'. subst s'. split; [by rewrite onmessage_cases |].
  unfold sent. rewrite wsRef_onmessage, wsConnected_onmessage,
    newTaskText_onmessage. repeat split.
Qed.

(** X6. A frame of a recognised type whose [tasks] is present but falsy
    ([null], [false], [0], the empty string) is ignored like a frame
    without [tasks]: only the console changes, by the two entries that show
    the frame and the parsed message. *)
Theorem onmessage_falsy_tasks (event_data : JSString) (data t v : JSValue)
    (s : AppState) :
  JSON_parse event_data = Some data ->
  Get data f_type = inr t ->
  existsb (strict_equals_string t) recognised_types = true ->
  Get data f_tasks = inr v ->
  ToBoolean v = false ->
  let s' := exec (onmessage event_data) s in
  fst (onmessage event_data s) = inr tt
  /\ tasks s' = tasks s
  /\ silent s' = silent s
  /\ logged s s' = [received event_data; parsed data].
Proof.
  intros Hparse Htype Htag Htasks Hfalsy s'. subst s'. unfold exec.
  rewrite onmessage_cases, Hparse, Htype, Htag, Htasks, Hfalsy. simpl.
  repeat split. apply logged_log_entries.
Qed.

(** X7. A frame of a recognised type whose [tasks] is truthy replaces the
    Task List with that value as it is, array or not: the handler checks
    nothing else about it. *)
Theorem onmessage_truthy_tasks (event_data : JSString) (data t v : JSValue)
    (s : AppState) :
  JSON_parse event_data = Some data ->
  Get data f_type = inr t ->
  existsb (strict_equals_string t) recognised_types = true ->
  Get data f_tasks = inr v ->
  ToBoolean v = true ->
  let s' := exec (onmessage event_data) s in
  fst (onmessage event_data s) = inr tt
  /\ tasks s' = v
  /\ silent s' = silent (exec (setTasks v) s)
  /\ logged s s' = [received event_data; parsed data; updating v].
Proof.
  intros Hparse Htype Htag Htasks Htruthy s'. subst s'. unfold exec at 1 2 4.
  rewrite onmessage_cases, Hparse, Htype, Htag, Htasks, Htruthy. simpl.
  repeat split. unfold logged. simpl. apply drop_app_length.
Qed.

(** X8. Only an inbound frame changes the Task List and its storage entry:
    no user intent, no input change, no socket event other than a message,
    and not the unmount. The list is never updated ahead of the server. *)
Theorem tasks_change_only_on_message (e : Event) (s : AppState) :
  is_message e = false ->
  store_part (dispatch e s) = store_part s.
Proof.
  intros Hnot.
  assert (Hready : forall r, store_part (set_readyState r s) = store_part s)
    by reflexivity.
  destruct e; simpl in *; try discriminate.
  - reflexivity.
  - apply keeps_intent.
  - destruct (socket_state s) as [[] |]; try reflexivity.
    unfold exec. by rewrite keeps_onopen.
  - destruct (socket_state s) as [[] |]; reflexivity.
  - destruct (socket_state s) as [[] |]; try reflexivity;
      unfold exec; by rewrite keeps_onclose.
  - destruct (socket_state s) as [[] |]; try reflexivity;
      unfold exec;
      by rewrite (keeps_bind onerror (fun _ => onclose) keeps_onerror
                    (fun _ => keeps_onclose)).
  - apply keeps_cleanup.
Qed.


(** *** The connection flag and the socket *)

Lemma flag_ok_eq (s : AppState) :
  flag_ok s
  <-> wsConnected s = match socket_state s with
                      | Some OPEN | Some CLOSING => true
                      | _ => false
                      end.
Proof.
  unfold flag_ok.
  destruct (wsConnected s), (socket_state s) as [[] |]; simpl; split;
    first
      [ intros _; reflexivity
      | intros H; discriminate H
      | intros [H _]; destruct (H eq_refl) as [? | ?]; discriminate
      | intros [_ H]; apply H;
        first [left; reflexivity | right; reflexivity]
      | intros _; split;
        [ intros _; first [left; reflexivity | right; reflexivity]
        | intros _; reflexivity ]
      | intros _; split; [discriminate | intros [? | ?]; discriminate] ].
Qed.

Lemma socket_state_transmit (frame : JSString) (s : AppState) :
  socket_state (transmit frame s) = socket_state s.
Proof.
  unfold transmit, socket_state.
  destruct (wsRef s) as [[[] out] |] eqn:Href; simpl; by rewrite ?Href.
Qed.

Lemma dispatch_intent_flags (i : Intent) (s : AppState) :
  wsConnected (dispatch (User i) s) = wsConnected s
  /\ socket_state (dispatch (User i) s) = socket_state s.
Proof.
  unfold dispatch, exec. rewrite intent_cases. simpl.
  destruct (rejected_as_blank i s); [by split |].
  destruct (wsConnected s && bool_decide (is_Some (wsRef s))); [| by split].
  pose proof (socket_state_transmit (JSON_stringify (intent_message i s)) s) as Hst.
  assert (Hc : wsConnected (transmit (JSON_stringify (intent_message i s)) s)
               = wsConnected s).
  { unfold transmit. destruct (wsRef s) as [[[] out] |]; reflexivity. }
  destruct i; simpl; split; first [exact Hc | exact Hst].
Qed.

Lemma dispatch_flag (e : Event) (s : AppState) :
  flag_ok s -> flag_ok (dispatch e s).
Proof.
  rewrite !flag_ok_eq. intros Hok.
  destruct e.
  - exact Hok.
  - destruct (dispatch_intent_flags i s) as [-> ->]. exact Hok.
  - unfold dispatch, socket_state in *.
    destruct (wsRef s) as [[[] out] |] eqn:Href; simpl in *;
      repeat (rewrite Href; simpl); try exact Hok.
    unfold exec, set_readyState. unfold_handlers. simpl.
    rewrite Href. reflexivity.
  - unfold dispatch.
    destruct (socket_state s) as [[] |] eqn:Hst; rewrite ?Hst; try exact Hok.
    unfold socket_state in *.
    rewrite wsConnected_onmessage, wsRef_onmessage. rewrite Hst. exact Hok.
  - unfold dispatch, socket_state, set_readyState in *.
    destruct (wsRef s) as [[[] out] |] eqn:Href; simpl in *;
      repeat (rewrite Href; simpl); exact Hok.
  - unfold dispatch, socket_state, exec, set_readyState in *.
    unfold_handlers.
    destruct (wsRef s) as [[[] out] |] eqn:Href; simpl in *;
      repeat (rewrite Href; simpl); first [exact Hok | reflexivity].
  - unfold dispatch, socket_state, exec, set_readyState in *.
    unfold_handlers.
    destruct (wsRef s) as [[[] out] |] eqn:Href; simpl in *;
      repeat (rewrite Href; simpl); first [exact Hok | reflexivity].
  - unfold dispatch, socket_state, exec in *. unfold_handlers.
    destruct (wsRef s) as [[[] out] |] eqn:Href; simpl in *;
      repeat (rewrite Href; simpl); exact Hok.
Qed.

Lemma run_flag (events : list Event) (s : AppState) :
  flag_ok s -> flag_ok (run events s).
Proof.
  revert s. induction events as [| e events IH]; intros s Hok; simpl.
  - exact Hok.
  - by apply IH, dispatch_flag.
Qed.

Lemma mount_flag (storage : gmap JSString JSString) :
  flag_ok (mount (load storage)).
Proof. apply flag_ok_eq. reflexivity. Qed.

(** *** A socket that is closing or closed *)

Lemma dispatch_released (e : Event) (s : AppState) (ws : WebSocket) :
  wsRef s = Some ws -> released ws = true ->
  exists ws', wsRef (dispatch e s) = Some ws' /\ released ws' = true
              /\ outbound ws' = outbound ws.
Proof.
  intros Href Hrel.
  assert (Hsame : exists ws', Some ws = Some ws' /\ released ws' = true
                              /\ outbound ws' = outbound ws) by eauto.
  destruct e.
  - simpl. unfold exec. unfold_handlers. simpl. by rewrite Href.
  - destruct (wsRef_intent i s ws Href) as [-> | (Hopen & _)]; [exact Hsame |].
    unfold released in Hrel. rewrite Hopen in Hrel. discriminate.
  - unfold dispatch, socket_state. rewrite Href. simpl.
    unfold released in Hrel.
    destruct (readyState ws); try discriminate; by rewrite Href.
  - unfold dispatch, socket_state. rewrite Href. simpl.
    unfold released in Hrel.
    destruct (readyState ws); try discriminate; by rewrite Href.
  - unfold dispatch, socket_state. rewrite Href. simpl.
    unfold released in Hrel.
    destruct (readyState ws); try discriminate; by rewrite Href.
  - unfold dispatch, socket_state. rewrite Href. simpl.
    unfold released in Hrel.
    destruct (readyState ws) eqn:Hready; try discriminate;
      [| by rewrite Href].
    unfold exec, set_readyState. unfold_handlers. simpl. rewrite Href. simpl.
    by eexists.
  - unfold dispatch, socket_state. rewrite Href. simpl.
    unfold released in Hrel.
    destruct (readyState ws) eqn:Hready; try discriminate;
      [| by rewrite Href].
    unfold exec, set_readyState. unfold_handlers. simpl. rewrite Href. simpl.
    by eexists.
  - unfold dispatch, exec. unfold_handlers. simpl. rewrite Href. simpl.
    unfold released in Hrel.
    destruct (readyState ws) eqn:Hready; try discriminate; simpl;
      by rewrite Href.
Qed.

(** X2. Once the socket is closing or closed, whether the peer, a failure
    or the unmount brought it there, no frame is sent for the rest of the
    page's life, whatever the user does: the socket stays closing or closed,
    and the component never opens another one. *)
Theorem released_socket_never_sends (s : AppState) (later : list Event) :
  socket_released s ->
  sent (run later s) = sent s /\ socket_released (run later s).
Proof.
  revert s. induction later as [| e later IH]; intros s Hrel; simpl.
  - by split.
  - destruct Hrel as (ws & Href & Hrel).
    destruct (dispatch_released e s ws Href Hrel) as (ws' & Href' & Hrel' & Hout).
    destruct (IH (dispatch e s)) as [Hsent Hlater]; [by exists ws' |].
    split; [| exact Hlater].
    rewrite Hsent. unfold sent. by rewrite Href, Href'.
Qed.

Lemma dispatch_closed (e : Event) (s : AppState) :
  socket_state s = Some CLOSED -> wsConnected s = false ->
  socket_state (dispatch e s) = Some CLOSED
  /\ wsConnected (dispatch e s) = false
  /\ tasks (dispatch e s) = tasks s.
Proof.
  intros Hst Hdown. destruct e.
  - by repeat split.
  - destruct (dispatch_intent_flags i s) as [-> ->].
    repeat split; try assumption.
    pose proof (keeps_intent i s) as Hkeep. unfold store_part in Hkeep.
    by injection Hkeep.
  - unfold dispatch. rewrite Hst. by repeat split.
  - unfold dispatch. rewrite Hst. by repeat split.
  - unfold dispatch. rewrite Hst. by repeat split.
  - unfold dispatch. rewrite Hst. by repeat split.
  - unfold dispatch. rewrite Hst. by repeat split.
  - unfold socket_state in Hst.
    destruct (wsRef s) as [[[] out] |] eqn:Href; try discriminate.
    unfold dispatch, exec, socket_state. unfold_handlers. simpl.
    repeat (rewrite Href; simpl). repeat split; assumption.
Qed.

Lemma run_closed (later : list Event) (s : AppState) :
  socket_state s = Some CLOSED -> wsConnected s = false ->
  socket_state (run later s) = Some CLOSED
  /\ wsConnected (run later s) = false
  /\ tasks (run later s) = tasks s.
Proof.
  revert s. induction later as [| e later IH]; intros s Hst Hdown; simpl.
  - by repeat split.
  - destruct (dispatch_closed e s Hst Hdown) as (Hst' & Hdown' & Htasks).
    destruct (IH _ Hst' Hdown') as (? & ? & ->). by repeat split.
Qed.

(** X3. After the socket has closed (a close, or an error followed by its
    close), the page stays disconnected for the rest of its life: the
    connection flag stays false, the Task List stays the last snapshot, and
    every intent that is not a blank add logs its warning and does nothing
    else. *)
Theorem closed_stays_disconnected (storage : gmap JSString JSString)
    (events later : list Event) :
  let s := run events (mount (load storage)) in
  socket_state s = Some CLOSED ->
  let s' := run later s in
  socket_state s' = Some CLOSED
  /\ wsConnected s' = false
  /\ tasks s' = tasks s
  /\ forall i : Intent,
       silent (dispatch (User i) s') = silent s'
       /\ logged s' (dispatch (User i) s')
          = (if rejected_as_blank i s' then []
             else [mkLogEntry WARN (lit (intent_warning i)) []]).
Proof.
  intros s Hst s'.
  assert (Hdown : wsConnected s = false).
  { pose proof (run_flag events _ (mount_flag storage)) as Hok.
    fold s in Hok. apply flag_ok_eq in Hok. by rewrite Hst in Hok. }
  destruct (run_closed later s Hst Hdown) as (Hst' & Hdown' & Htasks).
  fold s' in Hst', Hdown', Htasks.
  repeat split; try assumption;
    unfold dispatch, exec; rewrite (intent_refused i s' Hdown'); simpl;
    destruct (rejected_as_blank i s'); try reflexivity.
  - by apply logged_same.
  - apply logged_log_entries.
Qed.


(** *** Adding a task *)

Lemma not_blank (s : AppState) :
  trim (newTaskText s) <> [] -> rejected_as_blank AddTask s = false.
Proof.
  intros Hne. simpl. destruct (string_eqb _ _) eqn:E; [| reflexivity].
  apply string_eqb_eq in E. contradiction.
Qed.

Lemma dispatch_add (s : AppState) :
  dispatch (User AddTask) s
  = if rejected_as_blank AddTask s then s
    else if wsConnected s && bool_decide (is_Some (wsRef s)) then
      with_newTaskText []
        (transmit (JSON_stringify (add_task_message (newTaskText s))) s)
    else log_entries [mkLogEntry WARN (lit (intent_warning AddTask)) []] s.
Proof. unfold dispatch, exec. by rewrite intent_cases. Qed.

(** X4. With the page connected, the socket open and an input that does not
    trim to the empty string, Add sends one [add_task] frame that carries
    the input as typed (not trimmed) and clears the input; the Task List and
    the console are left alone. Since the input is then empty, a second Add
    right after sends nothing more. *)
Theorem add_task_sends_input_once (s : AppState) (ws : WebSocket) :
  wsConnected s = true -> wsRef s = Some ws -> readyState ws = OPEN ->
  trim (newTaskText s) <> [] ->
  let frame := JSON_stringify (add_task_message (newTaskText s)) in
  let s' := dispatch (User AddTask) s in
  fst (handleAddTask s) = inr tt
  /\ wsRef s' = Some (mkWebSocket OPEN (outbound ws ++ [frame]))
  /\ newTaskText s' = []
  /\ store_part s' = store_part s
  /\ console s' = console s
  /\ wsConnected s' = true
  /\ dispatch (User AddTask) s' = s'.
Proof.
  intros Hconn Href Hopen Hne frame s'.
  assert (Hs' : s' = with_newTaskText [] (transmit frame s)).
  { subst s'. rewrite dispatch_add, (not_blank s Hne), Hconn, Href. reflexivity. }
  assert (Ht : transmit frame s
               = with_wsRef (Some (mkWebSocket OPEN (outbound ws ++ [frame]))) s).
  { unfold transmit. by rewrite Href, Hopen. }
  split.
  { change (handleAddTask s) with (intent_handler AddTask s).
    by rewrite intent_cases. }
  rewrite Hs', Ht. simpl. repeat split; assumption.
Qed.

(** X5. With [wsConnected] still set but the socket no longer open (its
    closing handshake has begun), Add on a non-blank input sends nothing and
    logs nothing, yet clears the input: the text is dropped without a
    trace. *)
Theorem add_while_closing_drops_input (s : AppState) (ws : WebSocket) :
  wsConnected s = true -> wsRef s = Some ws -> readyState ws <> OPEN ->
  trim (newTaskText s) <> [] ->
  let s' := dispatch (User AddTask) s in
  wsRef s' = Some ws
  /\ sent s' = sent s
  /\ console s' = console s
  /\ store_part s' = store_part s
  /\ newTaskText s' = [].
Proof.
  intros Hconn Href Hclosed Hne s'. subst s'.
  rewrite dispatch_add, (not_blank s Hne), Hconn, Href. simpl.
  assert (Ht : transmit (JSON_stringify (add_task_message (newTaskText s))) s = s).
  { unfold transmit. rewrite Href.
    destruct (readyState ws); try reflexivity. by destruct Hclosed. }
  rewrite Ht. unfold sent. simpl. by rewrite Href.
Qed.

Lemma trim_start_nil_iff (text : JSString) :
  trim_start text = [] <-> forallb is_white_space text = true.
Proof.
  induction text as [| c rest IH]; simpl; [by split |].
  destruct (is_white_space c); simpl; [exact IH | by split].
Qed.

Lemma trim_start_white (text : JSString) :
  forallb is_white_space (trim_start text) = true -> trim_start text = [].
Proof.
  induction text as [| c rest IH]; simpl; [reflexivity |].
  destruct (is_white_space c) eqn:Hc; [exact IH |].
  simpl. rewrite Hc. discriminate.
Qed.

Lemma forallb_rev_eq {A} (f : A -> bool) (l : list A) :
  forallb f (rev l) = forallb f l.
Proof.
  induction l as [| a l IH]; simpl; [reflexivity |].
  rewrite forallb_app, IH. simpl. rewrite andb_true_r. apply andb_comm.
Qed.

Lemma trim_nil_iff (text : JSString) :
  trim text = [] <-> forallb is_white_space text = true.
Proof.
  unfold trim, trim_end. split.
  - intros H. apply (f_equal (@rev N)) in H. rewrite rev_involutive in H.
    simpl in H. apply trim_start_nil_iff in H. rewrite forallb_rev_eq in H.
    by apply trim_start_nil_iff, trim_start_white.
  - intros H. apply trim_start_nil_iff in H. rewrite H. reflexivity.
Qed.

(** X10. Add does nothing at all, no frame, no log entry, no change of the
    input, exactly when the input consists of white space only (the empty
    input included); on any other input it changes the state. *)
Theorem add_is_noop_iff_white_space (s : AppState) :
  handleAddTask s = (inr tt, s)
  <-> forallb is_white_space (newTaskText s) = true.
Proof.
  rewrite <- trim_nil_iff.
  change (handleAddTask s) with (intent_handler AddTask s).
  rewrite intent_cases. simpl. split.
  - destruct (string_eqb (trim (newTaskText s)) []) eqn:E;
      [intros _; by apply string_eqb_eq |].
    intros H. injection H as H.
    destruct (wsConnected s && bool_decide (is_Some (wsRef s))).
    + apply (f_equal newTaskText) in H. simpl in H. by rewrite <- H.
    + apply (f_equal (fun x => length (console x))) in H. simpl in H.
      rewrite length_app in H. simpl in H. lia.
  - intros H. apply string_eqb_eq in H. by rewrite H.
Qed.

(** *** Unmounting before the socket has opened *)

(** X14. The cleanup leaves a socket that is still connecting as it is, and
    its handlers stay attached: when the connection then opens, the socket
    becomes open and the [get_tasks] request is sent, after the unmount. *)
Theorem unmount_while_connecting_still_opens (s : AppState) (ws : WebSocket) :
  wsRef s = Some ws -> readyState ws = CONNECTING ->
  wsRef (dispatch Unmount s) = Some ws
  /\ wsRef (run [Unmount; TransportOpen] s)
     = Some (mkWebSocket OPEN (outbound ws ++ [get_tasks_frame])).
Proof.
  intros Href Hready.
  assert (Hun : wsRef (dispatch Unmount s) = Some ws).
  { unfold dispatch, exec. unfold_handlers. simpl. rewrite Href. simpl.
    by rewrite Hready. }
  split; [exact Hun |].
  change (run [Unmount; TransportOpen] s)
    with (dispatch TransportOpen (dispatch Unmount s)).
  by destruct (open_effect (dispatch Unmount s) ws Hun Hready) as (-> & _).
Qed.


(** *** The rendered task list *)

Lemma render_row_nullish (task : JSValue) :
  nullish task = true -> render_row task = inl TypeError.
Proof. destruct task; simpl; try discriminate; reflexivity. Qed.

Lemma render_row_ok (task : JSValue) :
  nullish task = false ->
  render_row task
  = inr (mkTaskRow (task_field f_id task) (task_className task)
           (task_field f_completed task) (task_field f_id task)
           (task_field f_text task)).
Proof. destruct task; simpl; try discriminate; reflexivity. Qed.

Lemma render_rows_throws (items : list JSValue) :
  existsb nullish items = true -> render_rows items = inl TypeError.
Proof.
  induction items as [| task rest IH]; simpl; [discriminate |].
  destruct (nullish task) eqn:Hnull; simpl.
  - intros _. by rewrite render_row_nullish.
  - intros H. rewrite (render_row_ok task Hnull), (IH H). reflexivity.
Qed.

Lemma render_rows_ok (items : list JSValue) :
  existsb nullish items = false ->
  render_rows items
  = inr (map (fun task =>
                mkTaskRow (task_field f_id task) (task_className task)
                  (task_field f_completed task) (task_field f_id task)
                  (task_field f_text task)) items).
Proof.
  induction items as [| task rest IH]; simpl; [reflexivity |].
  destruct (nullish task) eqn:Hnull; simpl; [discriminate |].
  intros H. rewrite (render_row_ok task Hnull), (IH H). reflexivity.
Qed.

(** X11. For a store that holds an array, the list renders one row per
    element, in the order of the array, each row keyed by and wired to its
    task's [id] and showing its task's [text] and [completed] (a field the
    task lacks shows as [undefined]); an empty array renders the "No tasks
    yet" paragraph. The rendering throws a [TypeError] exactly when some
    element is [null] or [undefined]. *)
Theorem render_tasks_rows (items : list JSValue) :
  if existsb nullish items then render_tasks items = inl TypeError
  else
    exists rows,
      render_tasks items = inr (match items with
                                | [] => NoTasks
                                | _ => TaskList rows
                                end)
      /\ map row_key rows = map (task_field f_id) items
      /\ map row_toggles rows = map (task_field f_id) items
      /\ map row_text rows = map (task_field f_text) items
      /\ map row_checked rows = map (task_field f_completed) items
      /\ map row_className rows = map task_className items.
Proof.
  unfold render_tasks.
  destruct (existsb nullish items) eqn:Hnull.
  - rewrite (render_rows_throws items Hnull).
    destruct items; [discriminate | reflexivity].
  - rewrite (render_rows_ok items Hnull). eexists. split.
    + destruct items; reflexivity.
    + rewrite !map_map. repeat split.
Qed.

(** X12. A frame of a recognised type whose [tasks] array holds a [null]
    is accepted like any other array, and the list then cannot be rendered:
    the Task List becomes that array, and rendering it throws a
    [TypeError]. *)
Theorem null_task_breaks_rendering (event_data : JSString) (data t : JSValue)
    (items : list JSValue) (s : AppState) :
  JSON_parse event_data = Some data ->
  Get data f_type = inr t ->
  existsb (strict_equals_string t) recognised_types = true ->
  Get data f_tasks = inr (JArray items) ->
  existsb nullish items = true ->
  let s' := exec (onmessage event_data) s in
  fst (onmessage event_data s) = inr tt
  /\ tasks s' = JArray items
  /\ render_tasks items = inl TypeError.
Proof.
  intros Hparse Htype Htag Htasks Hnull s'. subst s'. unfold exec.
  rewrite onmessage_cases, Hparse, Htype, Htag, Htasks. simpl.
  repeat split. unfold render_tasks. rewrite (render_rows_throws items Hnull).
  destruct items; [discriminate | reflexivity].
Qed.

Lemma render_rows_lookup (items : list JSValue) (rows : list TaskRow)
    (i : nat) (row : TaskRow) :
  render_rows items = inr rows -> rows !! i = Some row ->
  exists task, items !! i = Some task /\ render_row task = inr row.
Proof.
  revert rows i. induction items as [| task rest IH]; intros rows i; simpl.
  - intros H. injection H as <-. discriminate.
  - destruct (render_row task) as [e | r] eqn:Hrow; [discriminate |].
    destruct (render_rows rest) as [e | rs] eqn:Hrest; [discriminate |].
    intros H. injection H as <-. destruct i as [| i]; simpl.
    + intros H. injection H as <-. by exists task.
    + intros H. by apply (IH rs i).
Qed.

Lemma render_row_toggles (task : JSValue) (row : TaskRow) :
  render_row task = inr row -> GetTask task f_id = inr (row_toggles row).
Proof.
  unfold render_row.
  destruct (GetTask task f_id) as [e | id]; [discriminate |].
  destruct (GetTask task f_completed) as [e | completed]; [discriminate |].
  destruct (GetTask task f_text) as [e | text]; [discriminate |].
  intros H. injection H as <-. reflexivity.
Qed.

(** X13. With the page connected and the socket open, a change of the
    checkbox in row [i] of the rendered list sends one frame, the
    [toggle_task] message that carries the [id] of element [i] of the
    store's array, whatever value that is ([undefined] for a task without
    one), and leaves the Task List as it is: the row does not flip until
    the server answers. *)
Theorem checkbox_toggles_its_task (s : AppState) (items : list JSValue)
    (rows : list TaskRow) (i : nat) (row : TaskRow) :
  tasks s = JArray items ->
  render_rows items = inr rows ->
  rows !! i = Some row ->
  wsConnected s = true ->
  socket_state s = Some OPEN ->
  exists task,
    items !! i = Some task
    /\ GetTask task f_id = inr (row_toggles row)
    /\ sent (dispatch (checkbox_change row) s)
       = sent s ++ [JSON_stringify (toggle_task_message (row_toggles row))]
    /\ tasks (dispatch (checkbox_change row) s) = JArray items.
Proof.
  intros Htasks Hrows Hrow Hconn Hstate.
  destruct (render_rows_lookup items rows i row Hrows Hrow) as (task & Hitem & Hr).
  apply render_row_toggles in Hr.
  exists task. split; [exact Hitem |]. split; [exact Hr |].
  unfold socket_state in Hstate.
  destruct (wsRef s) as [[r out] |] eqn:Href; [| discriminate].
  simpl in Hstate. injection Hstate as ->.
  unfold checkbox_change, dispatch, exec. rewrite intent_cases. simpl.
  rewrite Hconn, Href. simpl. unfold transmit, sent. rewrite Href. simpl.
  split; [reflexivity | exact Htasks].
Qed.

(** *** What sends a frame *)

(** X15. Only a user intent and the socket's [open] send a frame: typing,
    an inbound frame, the start of the closing handshake, a close, a failure
    and the unmount leave what the socket has accepted as it is. *)
Theorem only_intents_and_open_send (e : Event) (s : AppState) :
  may_send e = false -> sent (dispatch e s) = sent s.
Proof.
  intros Hquiet. unfold sent.
  destruct e; simpl in Hquiet; try discriminate.
  - reflexivity.
  - unfold dispatch.
    destruct (socket_state s) as [[] |]; try reflexivity.
    by rewrite wsRef_onmessage.
  - unfold dispatch, socket_state, set_readyState.
    destruct (wsRef s) as [[[] out] |] eqn:Href; simpl; by rewrite ?Href.
  - unfold dispatch, socket_state, exec, set_readyState. unfold_handlers.
    destruct (wsRef s) as [[[] out] |] eqn:Href; simpl; by rewrite ?Href.
  - unfold dispatch, socket_state, exec, set_readyState. unfold_handlers.
    destruct (wsRef s) as [[[] out] |] eqn:Href; simpl; by rewrite ?Href.
  - unfold dispatch, exec. unfold_handlers. simpl.
    destruct (wsRef s) as [[[] out] |] eqn:Href; simpl; by rewrite ?Href.
Qed.

(** X16. Refresh is not throttled: on a connected page with an open socket
    every click sends one more [get_tasks] frame, so [n] clicks in a row
    send [n] of them. *)
Theorem refresh_sends_each_time (n : nat) (s : AppState) (ws : WebSocket) :
  wsConnected s = true -> wsRef s = Some ws -> readyState ws = OPEN ->
  sent (run (replicate n (User Refresh)) s)
  = outbound ws ++ replicate n get_tasks_frame.
Proof.
  revert s ws. induction n as [| n IH]; intros s ws Hconn Href Hopen.
  - simpl. unfold sent. rewrite Href. by rewrite app_nil_r.
  - change (run (replicate (S n) (User Refresh)) s)
      with (run (replicate n (User Refresh)) (dispatch (User Refresh) s)).
    assert (Hstep : dispatch (User Refresh) s
                    = with_wsRef
                        (Some (mkWebSocket OPEN (outbound ws ++ [get_tasks_frame])))
                        s).
    { unfold dispatch, exec. rewrite intent_cases. simpl.
      rewrite Hconn, Href. simpl. unfold transmit. by rewrite Href, Hopen. }
    rewrite Hstep.
    rewrite (IH _ (mkWebSocket OPEN (outbound ws ++ [get_tasks_frame])));
      try reflexivity; [| exact Hconn].
    simpl. by rewrite <- app_assoc.
Qed.

End Page.

(** ** The handlers on concrete frames

    Each statement above that has a hypothesis is applied here to a state
    and a frame of the example runtime, and the statements the code does not
    satisfy are refuted on such a state. *)

Import Example.

(** The page after a load over an empty storage and the mount. *)
Example fresh_page :
  mount (load parse ∅)
  = mkAppState (JArray []) ∅ [GetItem (lit "todo-store")] false []
      (Some (mkWebSocket CONNECTING []))
      [mkLogEntry LOG (lit "BASE_URL:") [ArgEnv];
       mkLogEntry LOG (lit "PROXY_TARGET:") [ArgEnv];
       mkLogEntry LOG (lit "WEBSOCKET_URL:") [ArgEnv]].
Proof. reflexivity. Qed.

(** C1 on the frame of scenario 2: [{type:"task_added", tasks:[t1]}]. *)
Lemma onmessage_snapshot_witness :
  tasks (exec (onmessage parse stringify (stringify added_milk))
              (dispatch parse stringify stringify TransportOpen
                 (mount (load parse ∅))))
  = milk.
Proof.
  refine (proj1 (proj2
    (onmessage_snapshot parse stringify (stringify added_milk)
       [(lit "type", JString (lit "task_added")); (lit "tasks", milk)]
       (lit "task_added") [task "t1" "Buy milk" false]
       (dispatch parse stringify stringify TransportOpen (mount (load parse ∅)))
       _ _ _ _))).
  - vm_compute. reflexivity.
  - vm_compute. reflexivity.
  - right. left. reflexivity.
  - vm_compute. reflexivity.
Defined.

(** C2, as amended, on a refresh before the socket has opened. *)
Lemma intent_while_disconnected_witness :
  logged (mount (load parse ∅))
         (dispatch parse stringify stringify (User Refresh) (mount (load parse ∅)))
  = [mkLogEntry WARN (lit "Cannot fetch tasks: WebSocket not connected") []].
Proof.
  refine (proj1 (proj2 (proj2 (proj2 (proj2
    (intent_while_disconnected parse stringify stringify Refresh
       (mount (load parse ∅)) _)))))).
  reflexivity.
Defined.

(** C2 as stated fails: with the input empty and the socket not yet open,
    the Add button logs no warning. *)
Lemma blank_add_logs_no_warning :
  ~ (forall (s : AppState) (i : Intent),
       wsConnected s = false ->
       let s' := dispatch parse stringify stringify (User i) s in
       sent s' = sent s /\ tasks s' = tasks s
       /\ has_level WARN (logged s s') = true).
Proof.
  intros H.
  destruct (H (mount (load parse ∅)) AddTask eq_refl) as (_ & _ & Hwarn).
  vm_compute in Hwarn. discriminate.
Qed.

(** C4, as amended, on a frame that is not JSON. *)
Lemma onmessage_malformed_witness :
  has_level ERROR
    (logged (mount (load parse ∅))
            (exec (onmessage parse stringify garbage) (mount (load parse ∅))))
  = true.
Proof.
  refine (proj2 (proj2 (proj2
    (onmessage_malformed parse stringify garbage (mount (load parse ∅)) _)))).
  left. vm_compute. reflexivity.
Defined.

(** C4 as stated fails: [{type:"task_added"}], a frame that parses and has
    no [tasks], is dropped without an error entry. *)
Lemma missing_tasks_logs_no_error :
  ~ (forall (s : AppState) (event_data : JSString),
       parse event_data = None
       \/ (exists data, parse event_data = Some data
                        /\ has_field data f_tasks = false) ->
       let s' := exec (onmessage parse stringify event_data) s in
       tasks s' = tasks s /\ has_level ERROR (logged s s') = true).
Proof.
  intros H.
  destruct (H (mount (load parse ∅)) (stringify added_without_tasks)) as [_ Herr].
  - right. exists added_without_tasks. split; vm_compute; reflexivity.
  - vm_compute in Herr. discriminate.
Qed.

(** C5 on a lifetime in which the user clicks before the socket opens and
    after. *)
Lemma get_tasks_sent_first_witness :
  sent (dispatch parse stringify stringify TransportOpen
          (run parse stringify stringify
             [User Refresh; InputChange (lit "Buy milk"); User AddTask]
             (mount (load parse ∅))))
  = [stringify (JObject [(lit "action", JString (lit "get_tasks"))])].
Proof.
  refine (proj1 (proj2 (proj2 (proj2
    (get_tasks_sent_first parse stringify stringify parse ∅
       [User Refresh; InputChange (lit "Buy milk"); User AddTask]
       [User AddTask; User (ToggleTask (JString (lit "t1")))] _))))).
  vm_compute. reflexivity.
Defined.

(** The server sends a task whose [id] is the number 0; the list shows its
    row, whose checkbox passes that number on. *)
Example numeric_id_row :
  tasks (run (parse_only overview_zero) stringify stringify
           [TransportOpen; TransportMessage (stringify overview_zero)]
           (mount (load parse ∅)))
  = JArray [task_zero]
  /\ render_rows [task_zero]
     = inr [mkTaskRow (JNumber 0) (lit "task-item ") (JBool false)
              (JNumber 0) (JString (lit "Buy milk"))]
  /\ checkbox_change
       (mkTaskRow (JNumber 0) (lit "task-item ") (JBool false)
          (JNumber 0) (JString (lit "Buy milk")))
     = User (ToggleTask (JNumber 0)).
Proof. repeat split; vm_compute; reflexivity. Qed.


(** C7 on an input of three spaces, the socket open. *)
Lemma handleAddTask_blank_witness :
  sent (dispatch parse stringify stringify (User AddTask)
          (run parse stringify stringify
             [TransportOpen; InputChange [0x20; 0x20; 0x20]]
             (mount (load parse ∅))))
  = [stringify (JObject [(lit "action", JString (lit "get_tasks"))])].
Proof.
  refine (eq_trans (proj2
    (handleAddTask_blank parse stringify stringify
       (run parse stringify stringify
          [TransportOpen; InputChange [0x20; 0x20; 0x20]]
          (mount (load parse ∅))) _)) _).
  - right. vm_compute. reflexivity.
  - vm_compute. reflexivity.
Defined.

(** C8 on a page that has received the list of scenario 2. *)
Lemma persisted_snapshot_witness :
  tasks (reload parse
           (run parse stringify stringify
              [TransportOpen; TransportMessage (stringify added_milk)]
              (mount (load parse ∅))))
  = milk.
Proof.
  refine (eq_trans (proj1 (proj2 (proj2
    (persisted_snapshot parse stringify stringify parse ∅
       [TransportOpen; TransportMessage (stringify added_milk)] milk_done _))))
    _).
  - vm_compute. reflexivity.
  - vm_compute. reflexivity.
Defined.

(** C9, as amended, on an open socket. *)
Lemma cleanup_closes_open_socket_witness :
  wsRef (exec cleanup
           (dispatch parse stringify stringify TransportOpen (mount (load parse ∅))))
  = Some (mkWebSocket CLOSING
            [stringify (JObject [(lit "action", JString (lit "get_tasks"))])]).
Proof.
  refine (proj1 (proj2
    (cleanup_closes_open_socket
       (dispatch parse stringify stringify TransportOpen (mount (load parse ∅)))
       (mkWebSocket OPEN
          [stringify (JObject [(lit "action", JString (lit "get_tasks"))])])
       _))).
  vm_compute. reflexivity.
Defined.

(** C9 as stated fails: a component unmounted while its socket is still
    connecting leaves the socket connecting. *)
Lemma unmount_while_connecting :
  ~ (forall (s : AppState) (ws : WebSocket),
       wsRef s = Some ws ->
       exists ws', wsRef (exec cleanup s) = Some ws' /\ released ws' = true).
Proof.
  intros H.
  destruct (H (mount (load parse ∅)) WebSocket_new eq_refl) as (ws' & Href & Hrel).
  vm_compute in Href. injection Href as <-. discriminate.
Qed.

(** The socket left behind then opens and sends its request. *)
Example socket_outlives_component :
  wsRef (run parse stringify stringify [Unmount; TransportOpen]
           (mount (load parse ∅)))
  = Some (mkWebSocket OPEN [get_tasks_frame stringify]).
Proof. reflexivity. Qed.

(** C10 on a frame of an unknown type that carries a task list. *)
Lemma onmessage_unrecognised_witness :
  tasks (exec (onmessage parse stringify (stringify pong_with_tasks))
              (dispatch parse stringify stringify TransportOpen
                 (mount (load parse ∅))))
  = JArray [].
Proof.
  refine (eq_trans (proj1 (proj2
    (onmessage_unrecognised parse stringify (stringify pong_with_tasks)
       pong_with_tasks (JString (lit "pong"))
       (dispatch parse stringify stringify TransportOpen (mount (load parse ∅)))
       _ _ _))) _).
  - vm_compute. reflexivity.
  - vm_compute. reflexivity.
  - vm_compute. reflexivity.
  - reflexivity.
Defined.

(** ** The further properties on concrete states *)

(** X2 on a socket closed by the unmount: typing and clicking afterwards
    sends nothing. *)
Lemma released_socket_never_sends_witness :
  sent (run parse stringify stringify
          [InputChange (lit "Buy milk"); User AddTask; User Refresh]
          (run parse stringify stringify [TransportOpen; Unmount]
             (mount (load parse ∅))))
  = [stringify (JObject [(lit "action", JString (lit "get_tasks"))])].
Proof.
  refine (eq_trans (proj1
    (released_socket_never_sends parse stringify stringify
       (run parse stringify stringify [TransportOpen; Unmount]
          (mount (load parse ∅)))
       [InputChange (lit "Buy milk"); User AddTask; User Refresh] _)) _).
  - exists (mkWebSocket CLOSING
              [stringify (JObject [(lit "action", JString (lit "get_tasks"))])]).
    split; vm_compute; reflexivity.
  - vm_compute. reflexivity.
Defined.

(** X3 on a connection that opened and closed. *)
Lemma closed_stays_disconnected_witness :
  wsConnected
    (run parse stringify stringify
       [InputChange (lit "Buy milk"); User AddTask; TransportOpen]
       (run parse stringify stringify [TransportOpen; TransportClosed]
          (mount (load parse ∅))))
  = false.
Proof.
  refine (proj1 (proj2
    (closed_stays_disconnected parse stringify stringify parse ∅
       [TransportOpen; TransportClosed]
       [InputChange (lit "Buy milk"); User AddTask; TransportOpen] _))).
  vm_compute. reflexivity.
Defined.

(** X4 on the input " Buy milk " typed into a connected page. *)
Lemma add_task_sends_input_once_witness :
  newTaskText
    (dispatch parse stringify stringify (User AddTask)
       (run parse stringify stringify
          [TransportOpen; InputChange (lit " Buy milk ")]
          (mount (load parse ∅))))
  = [].
Proof.
  refine (proj1 (proj2 (proj2
    (add_task_sends_input_once parse stringify stringify
       (run parse stringify stringify
          [TransportOpen; InputChange (lit " Buy milk ")]
          (mount (load parse ∅)))
       (mkWebSocket OPEN
          [stringify (JObject [(lit "action", JString (lit "get_tasks"))])])
       _ _ _ _)))).
  - vm_compute. reflexivity.
  - vm_compute. reflexivity.
  - reflexivity.
  - vm_compute. discriminate.
Defined.

(** X5 on a page whose peer has begun to close the connection. *)
Lemma add_while_closing_drops_input_witness :
  newTaskText
    (dispatch parse stringify stringify (User AddTask)
       (run parse stringify stringify
          [TransportOpen; InputChange (lit "Buy milk"); TransportClosing]
          (mount (load parse ∅))))
  = [].
Proof.
  refine (proj2 (proj2 (proj2 (proj2
    (add_while_closing_drops_input parse stringify stringify
       (run parse stringify stringify
          [TransportOpen; InputChange (lit "Buy milk"); TransportClosing]
          (mount (load parse ∅)))
       (mkWebSocket CLOSING
          [stringify (JObject [(lit "action", JString (lit "get_tasks"))])])
       _ _ _ _))))).
  - vm_compute. reflexivity.
  - vm_compute. reflexivity.
  - simpl. discriminate.
  - vm_compute. discriminate.
Defined.

(** X6 on the frame [{type:"task_added", tasks:null}]. *)
Lemma onmessage_falsy_tasks_witness :
  tasks (exec (onmessage (parse_only (message "task_added" JNull)) stringify
                 (stringify (message "task_added" JNull)))
              (mount (load parse ∅)))
  = JArray [].
Proof.
  refine (eq_trans (proj1 (proj2
    (onmessage_falsy_tasks (parse_only (message "task_added" JNull)) stringify
       (stringify (message "task_added" JNull))
       (message "task_added" JNull) (JString (lit "task_added")) JNull
       (mount (load parse ∅)) _ _ _ _ _))) _).
  - vm_compute. reflexivity.
  - vm_compute. reflexivity.
  - vm_compute. reflexivity.
  - vm_compute. reflexivity.
  - reflexivity.
  - reflexivity.
Defined.

(** X7 on the frame [{type:"tasks_overview", tasks:"oops"}]. *)
Lemma onmessage_truthy_tasks_witness :
  tasks (exec (onmessage
                 (parse_only (message "tasks_overview" (JString (lit "oops"))))
                 stringify
                 (stringify (message "tasks_overview" (JString (lit "oops")))))
              (mount (load parse ∅)))
  = JString (lit "oops").
Proof.
  refine (proj1 (proj2
    (onmessage_truthy_tasks
       (parse_only (message "tasks_overview" (JString (lit "oops")))) stringify
       (stringify (message "tasks_overview" (JString (lit "oops"))))
       (message "tasks_overview" (JString (lit "oops")))
       (JString (lit "tasks_overview")) (JString (lit "oops"))
       (mount (load parse ∅)) _ _ _ _ _))).
  - vm_compute. reflexivity.
  - vm_compute. reflexivity.
  - vm_compute. reflexivity.
  - vm_compute. reflexivity.
  - reflexivity.
Defined.

(** X8 on an Add that sends its frame. *)
Lemma tasks_change_only_on_message_witness :
  store_part
    (dispatch parse stringify stringify (User AddTask)
       (run parse stringify stringify
          [TransportOpen; InputChange (lit "Buy milk")]
          (mount (load parse ∅))))
  = (JArray [], ∅, [GetItem (lit "todo-store")]).
Proof.
  refine (eq_trans
    (tasks_change_only_on_message parse stringify stringify (User AddTask)
       (run parse stringify stringify
          [TransportOpen; InputChange (lit "Buy milk")]
          (mount (load parse ∅))) _) _).
  - reflexivity.
  - vm_compute. reflexivity.
Defined.

(** X12 on the frame [{type:"tasks_overview", tasks:[null]}]. *)
Lemma null_task_breaks_rendering_witness :
  render_tasks [JNull] = inl TypeError.
Proof.
  refine (proj2 (proj2
    (null_task_breaks_rendering
       (parse_only (message "tasks_overview" (JArray [JNull]))) stringify
       (stringify (message "tasks_overview" (JArray [JNull])))
       (message "tasks_overview" (JArray [JNull]))
       (JString (lit "tasks_overview")) [JNull]
       (mount (load parse ∅)) _ _ _ _ _))).
  - vm_compute. reflexivity.
  - vm_compute. reflexivity.
  - vm_compute. reflexivity.
  - vm_compute. reflexivity.
  - reflexivity.
Defined.

(** X13 on a list whose one task has the number 0 for its id. *)
Lemma checkbox_toggles_its_task_witness :
  exists item,
    [task_zero] !! 0%nat = Some item
    /\ GetTask item f_id = inr (JNumber 0)
    /\ sent (dispatch (parse_only overview_zero) stringify stringify
               (User (ToggleTask (JNumber 0)))
               (run (parse_only overview_zero) stringify stringify
                  [TransportOpen; TransportMessage (stringify overview_zero)]
                  (mount (load parse ∅))))
       = sent (run (parse_only overview_zero) stringify stringify
                 [TransportOpen; TransportMessage (stringify overview_zero)]
                 (mount (load parse ∅)))
         ++ [stringify (toggle_task_message (JNumber 0))]
    /\ tasks (dispatch (parse_only overview_zero) stringify stringify
                (User (ToggleTask (JNumber 0)))
                (run (parse_only overview_zero) stringify stringify
                   [TransportOpen; TransportMessage (stringify overview_zero)]
                   (mount (load parse ∅))))
       = JArray [task_zero].
Proof.
  refine (checkbox_toggles_its_task (parse_only overview_zero) stringify stringify
            (run (parse_only overview_zero) stringify stringify
               [TransportOpen; TransportMessage (stringify overview_zero)]
               (mount (load parse ∅)))
            [task_zero]
            [mkTaskRow (JNumber 0) (lit "task-item ") (JBool false)
               (JNumber 0) (JString (lit "Buy milk"))]
            0%nat
            (mkTaskRow (JNumber 0) (lit "task-item ") (JBool false)
               (JNumber 0) (JString (lit "Buy milk")))
            _ _ _ _ _).
  - vm_compute. reflexivity.
  - vm_compute. reflexivity.
  - reflexivity.
  - vm_compute. reflexivity.
  - vm_compute. reflexivity.
Defined.

(** X14 on a page unmounted right after its mount. *)
Lemma unmount_while_connecting_still_opens_witness :
  wsRef (run parse stringify stringify [Unmount; TransportOpen]
           (mount (load parse ∅)))
  = Some (mkWebSocket OPEN
            [stringify (JObject [(lit "action", JString (lit "get_tasks"))])]).
Proof.
  refine (proj2
    (unmount_while_connecting_still_opens parse stringify stringify
       (mount (load parse ∅)) WebSocket_new _ _)).
  - reflexivity.
  - reflexivity.
Defined.

(** X15 on the unmount of a connected page. *)
Lemma only_intents_and_open_send_witness :
  sent (dispatch parse stringify stringify Unmount
          (dispatch parse stringify stringify TransportOpen
             (mount (load parse ∅))))
  = [stringify (JObject [(lit "action", JString (lit "get_tasks"))])].
Proof.
  refine (eq_trans
    (only_intents_and_open_send parse stringify stringify Unmount
       (dispatch parse stringify stringify TransportOpen (mount (load parse ∅)))
       _) _).
  - reflexivity.
  - vm_compute. reflexivity.
Defined.

(** X16 on three clicks. *)
Lemma refresh_sends_each_time_witness :
  length
    (sent (run parse stringify stringify
             [User Refresh; User Refresh; User Refresh]
             (dispatch parse stringify stringify TransportOpen
                (mount (load parse ∅)))))
  = 4%nat.
Proof.
  refine (eq_trans (f_equal length
    (refresh_sends_each_time parse stringify stringify 3
       (dispatch parse stringify stringify TransportOpen (mount (load parse ∅)))
       (mkWebSocket OPEN
          [stringify (JObject [(lit "action", JString (lit "get_tasks"))])])
       _ _ _)) _).
  - vm_compute. reflexivity.
  - vm_compute. reflexivity.
  - reflexivity.
  - reflexivity.
Defined.
